(** * Function objects of gpython ([py/function.go])

    A shallow embedding of the [Function] struct, its constructor
    [NewFunction], the call and descriptor methods [M__call__] and
    [M__get__], and the property table that [init] installs in
    [FunctionType.Dict].

    Go pointers are addresses in an explicit heap; a Go [panic] is an
    explicit result; the bytecode evaluator [VmEvalCodeEx], which is not
    part of this file, is a node of the program tree that an interpreter
    answers from an oracle. *)

From Stdlib Require Import String DecimalString.
From stdpp Require Import gmap strings list fin_maps.

Open Scope string_scope.

(** ** Values *)

(** Addresses of heap-allocated Go values ([*Function], [*BoundMethod],
    the hash table behind a [map]). *)
Abbreviation loc := positive.

(** A Go slice of objects is [nil] or holds elements; [len] of both the
    [nil] and the empty slice is 0. *)
Definition slice (A : Type) : Type := option (list A).

Definition len {A} (s : slice A) : nat :=
  match s with
  | Some l => length l
  | None => 0
  end.

(** [StringDict] is [map[string]Object], a reference type: [nil] or the
    address of a table shared by every holder. *)
Definition StringDict : Type := option loc.

(** [Object] is a Go interface value: [ONil] is the nil interface, every
    other constructor is a dynamic type with its value.  [Code] is the
    struct behind [*Code].

    Modelled from the spec: the declarations of [Code], [None], [String],
    [Tuple], [List] and [StringDict] are outside [function.go].  [Code]
    keeps the three fields this file reads (name, constants, free-variable
    names); [None] is the single value of its type. *)
#[local] Unset Elimination Schemes.
Inductive Object : Type :=
| ONil
| ONone
| OString (s : string)
| OInt (n : Z)
| OTuple (t : slice Object)
| OList (l : slice Object)
| OStringDict (d : StringDict)
| OCode (c : option Code)
| OFunction (f : loc)
| OBoundMethod (m : loc)
with Code : Type :=
| mkCode (Name : string) (Consts : slice Object) (Freevars : slice string).
#[local] Set Elimination Schemes.

Definition Tuple : Type := slice Object.
Definition List : Type := slice Object.

Module CodeFields.
Definition Name (c : Code) : string := let 'mkCode n _ _ := c in n.
Definition Consts (c : Code) : Tuple := let 'mkCode _ k _ := c in k.
Definition Freevars (c : Code) : slice string := let 'mkCode _ _ v := c in v.
End CodeFields.

(** A python [Function] object, field for field. *)
Record Function : Type := mkFunction {
  Code_ : option Code;        (* Code *Code: nil or a code object *)
  Globals : StringDict;
  Defaults : Tuple;
  KwDefaults : StringDict;
  Closure : Tuple;
  Doc : Object;
  Name : string;
  Dict : StringDict;
  Weakreflist : List;
  Module_ : Object;
  Annotations : StringDict;
  Qualname : string
}.

(** What an address can hold. *)
Inductive Cell : Type :=
| HFunction (fn : Function)
| HBoundMethod (Self Method : Object)
| HDict (m : gmap string Object).

Abbreviation Heap := (gmap loc Cell).

Definition alloc (c : Cell) (h : Heap) : loc * Heap :=
  let l := fresh (dom h) in (l, <[l := c]> h).

(** ** Failures *)

(** Modelled from the spec: [ExceptionNewf], [TypeError] and [ValueError]
    are outside [function.go].  An exception carries its kind and the
    message [fmt.Sprintf] renders; these are the two kinds this file
    raises. *)
Inductive ExceptionType : Type := TypeError | ValueError.

Record Exception : Type := mkException {
  Base : ExceptionType;
  Message : string
}.

Definition ExceptionNewf (metatype : ExceptionType) (message : string) : Exception :=
  {| Base := metatype; Message := message |}.

(** [%d] of a Go [int] that holds a length. *)
Definition itoa (n : nat) : string := NilEmpty.string_of_uint (Nat.to_uint n).

(** Panics of the Go runtime itself. *)
Inductive RuntimeError : Type :=
| NilDereference          (* field access through a pointer that holds no struct *)
| InterfaceConversion.    (* a type assertion [x.(T)] without [ok] on another type *)

Section Semantics.

(** The dynamic type behind the evaluator's [error] results. *)
Context {error : Type}.

(** The value a [panic] carries. *)
Inductive PanicValue : Type :=
| PException (e : Exception)
| PError (err : error)
| PRuntime (r : RuntimeError).

Inductive Result (A : Type) : Type :=
| Ok (a : A)
| Panic (p : PanicValue).
Arguments Ok {A} a.
Arguments Panic {A} p.

(** Code that reads and writes the heap and may panic. *)
Definition M (A : Type) : Type := Heap -> Result A * Heap.

Definition ret {A} (a : A) : M A := fun h => (Ok a, h).

Definition panic {A} (p : PanicValue) : M A := fun h => (Panic p, h).

Definition bind {A B} (m : M A) (k : A -> M B) : M B :=
  fun h =>
    match m h with
    | (Ok a, h') => k a h'
    | (Panic p, h') => (Panic p, h')
    end.

Notation "x <- m ;; k" := (bind m (fun x => k))
  (at level 100, m at next level, right associativity).
Notation "m ;;; k" := (bind m (fun _ => k))
  (at level 100, right associativity).

(** [self.( *Function)]: the assertion has no [ok], so another dynamic
    type is a runtime panic. *)
Definition assertFunction (self : Object) : M loc :=
  match self with
  | OFunction f => ret f
  | _ => panic (PRuntime InterfaceConversion)
  end.

(** Reading the struct behind [f]. *)
Definition load (f : loc) : M Function :=
  fun h =>
    match h !! f with
    | Some (HFunction fn) => (Ok fn, h)
    | _ => (Panic (PRuntime NilDereference), h)
    end.

(** Writing the struct behind [f]. *)
Definition store (f : loc) (fn : Function) : M unit :=
  fun h => (Ok tt, <[f := HFunction fn]> h).

(** Reading through a [*Code]. *)
Definition derefCode (code : option Code) : M Code :=
  match code with
  | Some c => ret c
  | None => panic (PRuntime NilDereference)
  end.

(** [v, ok := d[key]]: a nil map has no keys. *)
Definition mapLookup (d : StringDict) (key : string) : M (option Object) :=
  fun h =>
    match d with
    | None => (Ok None, h)
    | Some l =>
        match h !! l with
        | Some (HDict m) => (Ok (m !! key), h)
        | _ => (Panic (PRuntime NilDereference), h)
        end
    end.

(** Modelled from the spec: [NewStringDict] is outside [function.go]; it
    makes a new empty map. *)
Definition NewStringDict : M StringDict :=
  fun h => let '(l, h') := alloc (HDict ∅) h in (Ok (Some l), h').

(** Modelled from the spec: [NewBoundMethod] is outside [function.go]; it
    returns a new bound-method value pairing the instance with the
    function. *)
Definition NewBoundMethod (self method : Object) : M Object :=
  fun h => let '(l, h') := alloc (HBoundMethod self method) h in (Ok (OBoundMethod l), h').

(** ** Construction *)

(** [instance != None] on interface values: equal only when the dynamic
    type is that of [None], whose single value is [None]. *)
Definition isNone (o : Object) : bool :=
  match o with
  | ONone => true
  | _ => false
  end.

(** [doc.(String)] with [ok]. *)
Definition isString (o : Object) : bool :=
  match o with
  | OString _ => true
  | _ => false
  end.

(** The docstring [NewFunction] derives: the first constant when there is
    one and it is a [String], [None] otherwise. *)
Definition docOf (c : Code) : Object :=
  if (1 <=? len (CodeFields.Consts c))%nat then
    match CodeFields.Consts c with
    | Some (doc :: _) => if isString doc then doc else ONone
    | _ => ONone
    end
  else ONone.

Definition NewFunction (code : option Code) (globals : StringDict) (qualname : string) : M loc :=
  c <- derefCode code ;;
  let doc := docOf c in
  found <- mapLookup globals "__name__" ;;
  let module := match found with Some moduleobj => moduleobj | None => ONone end in
  let qualname := if String.eqb qualname "" then CodeFields.Name c else qualname in
  fun h =>
    let '(f, h') :=
      alloc (HFunction {| Code_ := code;
                          Qualname := qualname;
                          Globals := globals;
                          Name := CodeFields.Name c;
                          Doc := doc;
                          Module_ := module;
                          Defaults := None;
                          KwDefaults := None;
                          Closure := None;
                          Dict := None;
                          Weakreflist := None;
                          Annotations := None |}) h in
    (Ok f, h').

(** ** Calling *)

(** The arguments of one [VmEvalCodeEx] call, in order. *)
Record EvalRequest : Type := mkEvalRequest {
  req_code : option Code;
  req_globals : StringDict;
  req_locals : StringDict;
  req_args : Tuple;
  req_kwargs : StringDict;
  req_defaults : Tuple;
  req_kwdefaults : StringDict;
  req_closure : Tuple
}.

(** Its two results, [(result, err)]. *)
Definition EvalReply : Type := Object * option error.

(** A program that may call the evaluator.  [VmEvalCodeEx] is outside
    [function.go]; a call to it is a node that holds the request, the heap
    at the call and what the caller does with the reply and with the heap
    the evaluator leaves. *)
Inductive Prog (A : Type) : Type :=
| Done (r : Result A) (h : Heap)
| VmEvalCodeEx (req : EvalRequest) (h : Heap) (k : EvalReply -> Heap -> Prog A).
Arguments Done {A} r h.
Arguments VmEvalCodeEx {A} req h k.

Definition M__call__ (f : loc) (args : Tuple) (kwargs : StringDict) (h : Heap) : Prog Object :=
  match load f h with
  | (Ok fn, h0) =>
      match NewStringDict h0 with
      | (Ok locals, h1) =>
          VmEvalCodeEx
            {| req_code := Code_ fn;
               req_globals := Globals fn;
               req_locals := locals;
               req_args := args;
               req_kwargs := kwargs;
               req_defaults := Defaults fn;
               req_kwdefaults := KwDefaults fn;
               req_closure := Closure fn |}
            h1
            (fun '(result, err) h2 =>
               match err with
               | Some e => Done (Panic (PError e)) h2
               | None => Done (Ok result) h2
               end)
      | (Panic p, h1) => Done (Panic p) h1
      end
  | (Panic p, h0) => Done (Panic p) h0
  end.

(** An evaluator: what it answers to a request and the heap it leaves. *)
Definition Evaluator : Type := EvalRequest -> Heap -> EvalReply * Heap.

(** Running a program against an evaluator. *)
Fixpoint run {A} (ev : Evaluator) (p : Prog A) : Result A * Heap :=
  match p with
  | Done r h => (r, h)
  | VmEvalCodeEx req h k => let '(reply, h') := ev req h in run ev (k reply h')
  end.

(** The evaluator calls made on the way, oldest first. *)
Fixpoint calls {A} (ev : Evaluator) (p : Prog A) : list (EvalRequest * Heap) :=
  match p with
  | Done _ _ => []
  | VmEvalCodeEx req h k => let '(reply, h') := ev req h in (req, h) :: calls ev (k reply h')
  end.

(** ** Binding *)

Definition M__get__ (f : loc) (instance owner : Object) : M Object :=
  if negb (isNone instance) then NewBoundMethod instance (OFunction f)
  else ret (OFunction f).

(** ** Properties *)

(** Modelled from the spec: the [Property] struct is outside
    [function.go]; a getter, and a setter and a deleter that may be
    missing ([nil]). *)
Record Property : Type := mkProperty {
  Fget : option (Object -> M Object);
  Fset : option (Object -> Object -> M unit);
  Fdel : option (Object -> M unit)
}.

(** Assignments to one field of the struct. *)
Definition set_Code (code : option Code) (fn : Function) : Function :=
  {| Code_ := code; Globals := Globals fn; Defaults := Defaults fn;
     KwDefaults := KwDefaults fn; Closure := Closure fn; Doc := Doc fn;
     Name := Name fn; Dict := Dict fn; Weakreflist := Weakreflist fn;
     Module_ := Module_ fn; Annotations := Annotations fn; Qualname := Qualname fn |}.

Definition set_Defaults (defaults : Tuple) (fn : Function) : Function :=
  {| Code_ := Code_ fn; Globals := Globals fn; Defaults := defaults;
     KwDefaults := KwDefaults fn; Closure := Closure fn; Doc := Doc fn;
     Name := Name fn; Dict := Dict fn; Weakreflist := Weakreflist fn;
     Module_ := Module_ fn; Annotations := Annotations fn; Qualname := Qualname fn |}.

Definition set_KwDefaults (kwdefaults : StringDict) (fn : Function) : Function :=
  {| Code_ := Code_ fn; Globals := Globals fn; Defaults := Defaults fn;
     KwDefaults := kwdefaults; Closure := Closure fn; Doc := Doc fn;
     Name := Name fn; Dict := Dict fn; Weakreflist := Weakreflist fn;
     Module_ := Module_ fn; Annotations := Annotations fn; Qualname := Qualname fn |}.

Definition set_Annotations (annotations : StringDict) (fn : Function) : Function :=
  {| Code_ := Code_ fn; Globals := Globals fn; Defaults := Defaults fn;
     KwDefaults := KwDefaults fn; Closure := Closure fn; Doc := Doc fn;
     Name := Name fn; Dict := Dict fn; Weakreflist := Weakreflist fn;
     Module_ := Module_ fn; Annotations := annotations; Qualname := Qualname fn |}.

Definition set_Dict (dict : StringDict) (fn : Function) : Function :=
  {| Code_ := Code_ fn; Globals := Globals fn; Defaults := Defaults fn;
     KwDefaults := KwDefaults fn; Closure := Closure fn; Doc := Doc fn;
     Name := Name fn; Dict := dict; Weakreflist := Weakreflist fn;
     Module_ := Module_ fn; Annotations := Annotations fn; Qualname := Qualname fn |}.

Definition set_Name (name : string) (fn : Function) : Function :=
  {| Code_ := Code_ fn; Globals := Globals fn; Defaults := Defaults fn;
     KwDefaults := KwDefaults fn; Closure := Closure fn; Doc := Doc fn;
     Name := name; Dict := Dict fn; Weakreflist := Weakreflist fn;
     Module_ := Module_ fn; Annotations := Annotations fn; Qualname := Qualname fn |}.

Definition set_Qualname (qualname : string) (fn : Function) : Function :=
  {| Code_ := Code_ fn; Globals := Globals fn; Defaults := Defaults fn;
     KwDefaults := KwDefaults fn; Closure := Closure fn; Doc := Doc fn;
     Name := Name fn; Dict := Dict fn; Weakreflist := Weakreflist fn;
     Module_ := Module_ fn; Annotations := Annotations fn; Qualname := qualname |}.

(** [self.( *Function).field = x] *)
Definition assign (f : loc) (upd : Function -> Function) : M unit :=
  fn <- load f ;; store f (upd fn).

(** [__code__] *)
Definition Fget_code (self : Object) : M Object :=
  f <- assertFunction self ;;
  fn <- load f ;;
  ret (OCode (Code_ fn)).

Definition Fset_code (self value : Object) : M unit :=
  f <- assertFunction self ;;
  match value with
  | OCode code =>
      c <- derefCode code ;;
      let nfree := len (CodeFields.Freevars c) in
      fn <- load f ;;
      let nclosure := len (Closure fn) in
      if negb (nfree =? nclosure)%nat then
        panic (PException (ExceptionNewf ValueError
          (Name fn ++ "() requires a code object with " ++ itoa nclosure
                   ++ " free vars, not " ++ itoa nfree)))
      else assign f (set_Code code)
  | _ => panic (PException (ExceptionNewf TypeError "__code__ must be set to a code object"))
  end.

(** [__defaults__] *)
Definition Fget_defaults (self : Object) : M Object :=
  f <- assertFunction self ;;
  fn <- load f ;;
  ret (OTuple (Defaults fn)).

Definition Fset_defaults (self value : Object) : M unit :=
  f <- assertFunction self ;;
  match value with
  | OTuple defaults => assign f (set_Defaults defaults)
  | _ => panic (PException (ExceptionNewf TypeError "__defaults__ must be set to a tuple object"))
  end.

Definition Fdel_defaults (self : Object) : M unit :=
  f <- assertFunction self ;;
  assign f (set_Defaults None).

(** [__kwdefaults__] *)
Definition Fget_kwdefaults (self : Object) : M Object :=
  f <- assertFunction self ;;
  fn <- load f ;;
  ret (OStringDict (KwDefaults fn)).

Definition Fset_kwdefaults (self value : Object) : M unit :=
  f <- assertFunction self ;;
  match value with
  | OStringDict kwdefaults => assign f (set_KwDefaults kwdefaults)
  | _ => panic (PException (ExceptionNewf TypeError "__kwdefaults__ must be set to a dict object"))
  end.

Definition Fdel_kwdefaults (self : Object) : M unit :=
  f <- assertFunction self ;;
  assign f (set_KwDefaults None).

(** [__annotations__] *)
Definition Fget_annotations (self : Object) : M Object :=
  f <- assertFunction self ;;
  fn <- load f ;;
  ret (OStringDict (Annotations fn)).

Definition Fset_annotations (self value : Object) : M unit :=
  f <- assertFunction self ;;
  match value with
  | OStringDict annotations => assign f (set_Annotations annotations)
  | _ => panic (PException (ExceptionNewf TypeError "__annotations__ must be set to a dict object"))
  end.

Definition Fdel_annotations (self : Object) : M unit :=
  f <- assertFunction self ;;
  assign f (set_Annotations None).

(** [__dict__] *)
Definition Fget_dict (self : Object) : M Object :=
  f <- assertFunction self ;;
  fn <- load f ;;
  ret (OStringDict (Dict fn)).

Definition Fset_dict (self value : Object) : M unit :=
  f <- assertFunction self ;;
  match value with
  | OStringDict dict => assign f (set_Dict dict)
  | _ => panic (PException (ExceptionNewf TypeError "__dict__ must be set to a dict object"))
  end.

Definition Fdel_dict (self : Object) : M unit :=
  f <- assertFunction self ;;
  assign f (set_Dict None).

(** [__name__] *)
Definition Fget_name (self : Object) : M Object :=
  f <- assertFunction self ;;
  fn <- load f ;;
  ret (OString (Name fn)).

Definition Fset_name (self value : Object) : M unit :=
  f <- assertFunction self ;;
  match value with
  | OString name => assign f (set_Name name)
  | _ => panic (PException (ExceptionNewf TypeError "__name__ must be set to a string object"))
  end.

(** [__qualname__] *)
Definition Fget_qualname (self : Object) : M Object :=
  f <- assertFunction self ;;
  fn <- load f ;;
  ret (OString (Qualname fn)).

Definition Fset_qualname (self value : Object) : M unit :=
  f <- assertFunction self ;;
  match value with
  | OString qualname => assign f (set_Qualname qualname)
  | _ => panic (PException (ExceptionNewf TypeError "__qualname__ must be set to a string object"))
  end.

(** [FunctionType.Dict] once [init] has run, the assignments in source
    order. *)
Definition FunctionType_Dict : gmap string Property :=
  <[ "__qualname__" := {| Fget := Some Fget_qualname; Fset := Some Fset_qualname; Fdel := None |} ]>
  (<[ "__name__" := {| Fget := Some Fget_name; Fset := Some Fset_name; Fdel := None |} ]>
  (<[ "__dict__" := {| Fget := Some Fget_dict; Fset := Some Fset_dict; Fdel := Some Fdel_dict |} ]>
  (<[ "__annotations__" :=
        {| Fget := Some Fget_annotations; Fset := Some Fset_annotations;
           Fdel := Some Fdel_annotations |} ]>
  (<[ "__kwdefaults__" :=
        {| Fget := Some Fget_kwdefaults; Fset := Some Fset_kwdefaults;
           Fdel := Some Fdel_kwdefaults |} ]>
  (<[ "__defaults__" :=
        {| Fget := Some Fget_defaults; Fset := Some Fset_defaults;
           Fdel := Some Fdel_defaults |} ]>
  (<[ "__code__" := {| Fget := Some Fget_code; Fset := Some Fset_code; Fdel := None |} ]>
   ∅)))))).

End Semantics.

Arguments PanicValue : clear implicits.
Arguments Result : clear implicits.
Arguments M : clear implicits.
Arguments Prog : clear implicits.
Arguments Property : clear implicits.
Arguments Evaluator : clear implicits.
Arguments EvalReply : clear implicits.
Arguments Ok {error A} a.
Arguments Panic {error A} p.
Arguments Done {error A} r h.
Arguments VmEvalCodeEx {error A} req h k.
Arguments PException {error} e.
Arguments PRuntime {error} r.

(** ** What the properties below speak about *)

(** The value-categories the setters accept. *)
Definition isTuple (o : Object) : bool :=
  match o with
  | OTuple _ => true
  | _ => false
  end.

Definition isStringDict (o : Object) : bool :=
  match o with
  | OStringDict _ => true
  | _ => false
  end.

(** The contents of a [StringDict] in a heap: a nil map has none. *)
Definition contents (h : Heap) (d : StringDict) : option (gmap string Object) :=
  match d with
  | None => Some ∅
  | Some l =>
      match h !! l with
      | Some (HDict m) => Some m
      | _ => None
      end
  end.

(** The closure has as many cells as the code has free variables, whenever
    both are non-empty. *)
Definition closureArityOk (fn : Function) : bool :=
  match Code_ fn with
  | Some c =>
      (len (Closure fn) =? 0)%nat
      || (len (CodeFields.Freevars c) =? 0)%nat
      || (len (Closure fn) =? len (CodeFields.Freevars c))%nat
  | None => true
  end.

(** [f] is a function object of [h] in which that holds. *)
Definition arityHoldsAt (h : Heap) (f : loc) : Prop :=
  exists fn, h !! f = Some (HFunction fn) /\ closureArityOk fn = true.

(** ** A function to try things on *)

Module Scenario.

(** [def add(...)] with a docstring and no free variable. *)
Definition C : Code := mkCode "add" (Some [OString "adds two numbers"; OInt 0]) None.

(** A body with one free variable. *)
Definition inner : Code := mkCode "inner" (Some [OInt 1]) (Some ["x"]).

(** A body without free variables and whose first constant is no text. *)
Definition plain : Code := mkCode "plain" (Some [OInt 7; OString "seven"]) (Some []).

Definition g : loc := 1%positive.

(** The heap holds the globals [{"__name__": "mathmod"}]. *)
Definition names : gmap string Object := {[ "__name__" := OString "mathmod" ]}.

Definition h0 : Heap := {[ g := HDict names ]}.

(** [NewFunction(C, globals, "")] on it. *)
Definition made : Result string loc * Heap := NewFunction (Some C) (Some g) "" h0.

Definition f : loc := fresh (dom h0).

Definition h1 : Heap := snd made.

Definition fn1 : Function :=
  {| Code_ := Some C; Globals := Some g; Defaults := None; KwDefaults := None;
     Closure := None; Doc := OString "adds two numbers"; Name := "add";
     Dict := None; Weakreflist := None; Module_ := OString "mathmod";
     Annotations := None; Qualname := "add" |}.

(** An evaluator that adds two integers and fails on anything else. *)
Definition adder : Evaluator string :=
  fun req h =>
    match req_args req with
    | Some [OInt a; OInt b] => ((OInt (a + b), None), h)
    | _ => ((ONil, Some "bad operands"), h)
    end.

End Scenario.

Example scenario_made : Scenario.made = (Ok Scenario.f, <[Scenario.f := HFunction Scenario.fn1]> Scenario.h0).
Proof. vm_compute. reflexivity. Qed.

Example scenario_lookup : Scenario.h1 !! Scenario.f = Some (HFunction Scenario.fn1).
Proof. vm_compute. reflexivity. Qed.

Example scenario_call :
  run Scenario.adder (M__call__ Scenario.f (Some [OInt 2; OInt 3]) None Scenario.h1)
  = (Ok (OInt 5), <[fresh (dom Scenario.h1) := HDict ∅]> Scenario.h1).
Proof. vm_compute. reflexivity. Qed.

Example scenario_set_code :
  Fset_code (error := string) (OFunction Scenario.f) (OCode (Some Scenario.inner)) Scenario.h1
  = (Panic (PException (ExceptionNewf ValueError
       "add() requires a code object with 0 free vars, not 1")), Scenario.h1).
Proof. vm_compute. reflexivity. Qed.

(** ** Basic facts about the heap operations *)

Lemma load_function {error} (h : Heap) (f : loc) (fn : Function) :
  h !! f = Some (HFunction fn) -> load (error := error) f h = (Ok fn, h).
Proof. intros Hf. unfold load. by rewrite Hf. Qed.

Lemma alloc_fresh (c : Cell) (h : Heap) : h !! fresh (dom h) = None.
Proof. apply not_elem_of_dom, is_fresh. Qed.

Lemma assign_function {error} (h : Heap) (f : loc) (fn : Function) (upd : Function -> Function) :
  h !! f = Some (HFunction fn) ->
  assign (error := error) f upd h = (Ok tt, <[f := HFunction (upd fn)]> h).
Proof. intros Hf. unfold assign, bind. by rewrite (load_function _ _ _ Hf). Qed.

Lemma lookup_assigned (h : Heap) (f : loc) (fn : Function) :
  <[f := HFunction fn]> h !! f = Some (HFunction fn).
Proof. apply lookup_insert_eq. Qed.

#[local] Hint Resolve lookup_assigned : core.

(** Unfolds one property function applied to a function object of the
    heap. *)
Ltac run_property Hf :=
  repeat progress
    (unfold bind, assign, store, ret, panic, derefCode, assertFunction, load;
     cbn beta iota zeta; rewrite ?Hf, ?lookup_insert_eq).

(** ** The [__code__] setter *)

(** C1.  Setting [__code__] of a function object to a code object whose
    number of free variables differs from the length of the function's
    closure panics with a [ValueError] whose message gives the closure
    length and then the free-variable count, and the heap (so the
    function's code) stays as it was; when the two are equal the set
    succeeds and the function's code is the new code object, which the
    getter then returns. *)
Theorem Fset_code_checks_arity {error} (h : Heap) (f : loc) (fn : Function) (c : Code) :
  h !! f = Some (HFunction fn) ->
  (len (CodeFields.Freevars c) <> len (Closure fn) ->
     Fset_code (error := error) (OFunction f) (OCode (Some c)) h
     = (Panic (PException
          {| Base := ValueError;
             Message := Name fn ++ "() requires a code object with "
                        ++ itoa (len (Closure fn)) ++ " free vars, not "
                        ++ itoa (len (CodeFields.Freevars c)) |}), h))
  /\ (len (CodeFields.Freevars c) = len (Closure fn) ->
        exists h',
          Fset_code (error := error) (OFunction f) (OCode (Some c)) h = (Ok tt, h')
          /\ h' = <[f := HFunction (set_Code (Some c) fn)]> h
          /\ Code_ (set_Code (Some c) fn) = Some c
          /\ Fget_code (error := error) (OFunction f) h' = (Ok (OCode (Some c)), h')).
Proof.
  intros Hf. split; intros Hlen.
  - unfold Fset_code. run_property Hf.
    destruct (Nat.eqb_spec (len (CodeFields.Freevars c)) (len (Closure fn))) as [E|_];
      [by destruct Hlen|reflexivity].
  - eexists. split; [|split; [reflexivity|split; [reflexivity|]]].
    + unfold Fset_code. run_property Hf.
      rewrite Hlen, Nat.eqb_refl. cbn [negb]. by rewrite Hf.
    + unfold Fget_code. run_property (lookup_assigned h f (set_Code (Some c) fn)).
      reflexivity.
Qed.

Lemma Fset_code_checks_arity_witness :
  Scenario.h1 !! Scenario.f = Some (HFunction Scenario.fn1)
  /\ len (CodeFields.Freevars Scenario.inner) <> len (Closure Scenario.fn1)
  /\ Fset_code (error := string) (OFunction Scenario.f) (OCode (Some Scenario.inner)) Scenario.h1
     = (Panic (PException
          {| Base := ValueError;
             Message := "add() requires a code object with 0 free vars, not 1" |}),
        Scenario.h1)
  /\ len (CodeFields.Freevars Scenario.plain) = len (Closure Scenario.fn1)
  /\ exists h',
       Fset_code (error := string) (OFunction Scenario.f) (OCode (Some Scenario.plain)) Scenario.h1
       = (Ok tt, h')
       /\ h' = <[Scenario.f := HFunction (set_Code (Some Scenario.plain) Scenario.fn1)]> Scenario.h1
       /\ Code_ (set_Code (Some Scenario.plain) Scenario.fn1) = Some Scenario.plain
       /\ Fget_code (error := string) (OFunction Scenario.f) h' = (Ok (OCode (Some Scenario.plain)), h').
Proof.
  split; [vm_compute; reflexivity|].
  split; [vm_compute; discriminate|].
  split.
  - apply (proj1 (Fset_code_checks_arity (error := string)
                    Scenario.h1 Scenario.f Scenario.fn1 Scenario.inner
                    ltac:(vm_compute; reflexivity))).
    vm_compute; discriminate.
  - split; [reflexivity|].
    apply (proj2 (Fset_code_checks_arity (error := string)
                    Scenario.h1 Scenario.f Scenario.fn1 Scenario.plain
                    ltac:(vm_compute; reflexivity))).
    reflexivity.
Defined.

(** ** Construction *)

(** C3.  For every code object, every globals map of the heap (nil
    included) and every qualified name, [NewFunction] returns without a
    panic the address of a new function object and changes nothing else in
    the heap.  The object's name is the code's name; its qualified name is
    the one given, or the code's name when the one given is empty; its doc
    is the code's first constant when there is one and it is a string, and
    [None] otherwise; its module is [globals["__name__"]] when the key is
    there, and [None] otherwise; defaults, keyword defaults, closure,
    attribute dictionary and annotations are nil. *)
Theorem NewFunction_constructs {error} (h : Heap) (c : Code) (globals : StringDict)
    (m : gmap string Object) (qualname : string) :
  contents h globals = Some m ->
  exists f fn,
    NewFunction (error := error) (Some c) globals qualname h
    = (Ok f, <[f := HFunction fn]> h)
    /\ h !! f = None
    /\ Code_ fn = Some c
    /\ Globals fn = globals
    /\ Name fn = CodeFields.Name c
    /\ Qualname fn = (if decide (qualname = "") then CodeFields.Name c else qualname)
    /\ Doc fn = match CodeFields.Consts c with
                | Some (OString s :: _) => OString s
                | _ => ONone
                end
    /\ Module_ fn = match m !! "__name__" with
                    | Some moduleobj => moduleobj
                    | None => ONone
                    end
    /\ Defaults fn = None
    /\ KwDefaults fn = None
    /\ Closure fn = None
    /\ Dict fn = None
    /\ Annotations fn = None
    /\ Weakreflist fn = None.
Proof.
  intros Hm.
  assert (Hlook : mapLookup (error := error) globals "__name__" h = (Ok (m !! "__name__"), h)).
  { unfold mapLookup. destruct globals as [l|]; cbn in Hm.
    - destruct (h !! l) as [[| |m']|]; try discriminate. by injection Hm as ->.
    - by injection Hm as <-. }
  unfold NewFunction, bind. cbn [derefCode ret]. rewrite Hlook.
  unfold alloc. do 2 eexists. split; [reflexivity|].
  split; [apply alloc_fresh; exact (HDict ∅)|]. cbn.
  repeat split.
  - destruct (String.eqb_spec qualname ""); by case_decide.
  - unfold docOf. destruct c as [n [[|[] ?]|] v]; reflexivity.
Qed.

Lemma NewFunction_constructs_witness :
  contents Scenario.h0 (Some Scenario.g) = Some Scenario.names
  /\ exists f fn,
       NewFunction (error := string) (Some Scenario.C) (Some Scenario.g) "" Scenario.h0
       = (Ok f, <[f := HFunction fn]> Scenario.h0)
       /\ Name fn = "add"
       /\ Qualname fn = "add"
       /\ Doc fn = OString "adds two numbers"
       /\ Module_ fn = OString "mathmod"
       /\ Closure fn = None
       /\ Defaults fn = None.
Proof.
  split; [vm_compute; reflexivity|].
  destruct (NewFunction_constructs (error := string) Scenario.h0 Scenario.C (Some Scenario.g)
              Scenario.names "" ltac:(vm_compute; reflexivity))
    as (f & fn & Hnew & _ & _ & _ & Hn & Hq & Hd & Hm & Hdf & _ & Hcl & _).
  exists f, fn. repeat split; assumption.
Defined.

(** ** Calling *)

(** The request [M__call__] makes for a function with fields [fn] and the
    local scope at [l]. *)
Definition requestOf (fn : Function) (l : loc) (args : Tuple) (kwargs : StringDict) : EvalRequest :=
  {| req_code := Code_ fn;
     req_globals := Globals fn;
     req_locals := Some l;
     req_args := args;
     req_kwargs := kwargs;
     req_defaults := Defaults fn;
     req_kwdefaults := KwDefaults fn;
     req_closure := Closure fn |}.

Lemma M__call___unfold {error} (h : Heap) (f : loc) (fn : Function) (args : Tuple)
    (kwargs : StringDict) :
  h !! f = Some (HFunction fn) ->
  M__call__ (error := error) f args kwargs h
  = VmEvalCodeEx (requestOf fn (fresh (dom h)) args kwargs)
      (<[fresh (dom h) := HDict ∅]> h)
      (fun '(result, err) h2 =>
         match err with
         | Some e => Done (Panic (PError e)) h2
         | None => Done (Ok result) h2
         end).
Proof. intros Hf. unfold M__call__. by rewrite (load_function _ _ _ Hf). Qed.

(** C2.  Calling a function object makes one call of the evaluator, with
    the function's code and globals, a local scope that is a new address of
    the heap holding an empty map, the positional and keyword arguments as
    given, and the function's defaults, keyword defaults and closure.  The
    result of the call is the evaluator's result when its error is nil, and
    a panic carrying the evaluator's error itself otherwise. *)
Theorem M__call___delegates {error} (ev : Evaluator error) (h : Heap) (f : loc)
    (fn : Function) (args : Tuple) (kwargs : StringDict) :
  h !! f = Some (HFunction fn) ->
  exists l,
    h !! l = None
    /\ let h1 := <[l := HDict ∅]> h in
       let req := {| req_code := Code_ fn;
                     req_globals := Globals fn;
                     req_locals := Some l;
                     req_args := args;
                     req_kwargs := kwargs;
                     req_defaults := Defaults fn;
                     req_kwdefaults := KwDefaults fn;
                     req_closure := Closure fn |} in
       calls ev (M__call__ f args kwargs h) = [(req, h1)]
       /\ run ev (M__call__ f args kwargs h)
          = match ev req h1 with
            | ((result, None), h2) => (Ok result, h2)
            | ((_, Some e), h2) => (Panic (PError e), h2)
            end.
Proof.
  intros Hf. exists (fresh (dom h)). split; [apply alloc_fresh; exact (HDict ∅)|].
  cbn zeta. rewrite (M__call___unfold _ _ _ _ _ Hf). cbn [calls run]. fold (requestOf fn (fresh (dom h)) args kwargs).
  destruct (ev _ _) as [[result [e|]] h2]; split; reflexivity.
Qed.

Lemma M__call___delegates_witness :
  Scenario.h1 !! Scenario.f = Some (HFunction Scenario.fn1)
  /\ exists l,
       Scenario.h1 !! l = None
       /\ calls Scenario.adder (M__call__ Scenario.f (Some [OInt 2; OInt 3]) None Scenario.h1)
          = [({| req_code := Some Scenario.C;
                 req_globals := Some Scenario.g;
                 req_locals := Some l;
                 req_args := Some [OInt 2; OInt 3];
                 req_kwargs := None;
                 req_defaults := None;
                 req_kwdefaults := None;
                 req_closure := None |}, <[l := HDict ∅]> Scenario.h1)]
       /\ run Scenario.adder (M__call__ Scenario.f (Some [OInt 2; OInt 3]) None Scenario.h1)
          = (Ok (OInt 5), <[l := HDict ∅]> Scenario.h1).
Proof.
  split; [vm_compute; reflexivity|].
  destruct (M__call___delegates Scenario.adder Scenario.h1 Scenario.f Scenario.fn1
              (Some [OInt 2; OInt 3]) None ltac:(vm_compute; reflexivity))
    as (l & Hl & Hcalls & Hrun).
  exists l. repeat split; assumption.
Defined.

(** C9, as the code has it.  A call itself writes no field of the function
    object.  The evaluator receives a heap in which the function object is
    as before the call, and the heap after the call is the heap the
    evaluator left, whether it returned a result or an error; so every
    field of the function object is after the call what it was before
    whenever the evaluated code leaves the object alone.  Evaluated code
    can reach the object through its accessors, so without that condition
    the fields need not be the same. *)
Theorem M__call___frame {error} (ev : Evaluator error) (h : Heap) (f : loc)
    (fn : Function) (args : Tuple) (kwargs : StringDict) :
  h !! f = Some (HFunction fn) ->
  (forall req h1, (req, h1) ∈ calls ev (M__call__ f args kwargs h) ->
     h1 !! f = Some (HFunction fn)
     /\ snd (run ev (M__call__ f args kwargs h)) = snd (ev req h1))
  /\ ((forall req h1, snd (ev req h1) !! f = h1 !! f) ->
      snd (run ev (M__call__ f args kwargs h)) !! f = Some (HFunction fn)).
Proof.
  intros Hf. rewrite (M__call___unfold _ _ _ _ _ Hf). cbn [calls run].
  assert (Hne : fresh (dom h) <> f).
  { intros E. pose proof (alloc_fresh (HDict ∅) h) as Hfresh. rewrite E in Hfresh. congruence. }
  destruct (ev _ _) as [[result err] h2] eqn:Hev.
  assert (Hleft : snd (run ev (match err with
                               | Some e => Done (Panic (PError e)) h2
                               | None => Done (Ok result) h2
                               end : Prog error Object)) = h2)
    by (by destruct err).
  assert (Hcalls : calls ev (match err with
                             | Some e => Done (Panic (PError e)) h2
                             | None => Done (Ok result) h2
                             end : Prog error Object) = [])
    by (by destruct err).
  rewrite Hleft, Hcalls. split.
  - intros req h1 Hin. apply list_elem_of_singleton in Hin. injection Hin as -> ->.
    split; [by rewrite lookup_insert_ne|].
    by rewrite Hev.
  - intros Hframe.
    specialize (Hframe (requestOf fn (fresh (dom h)) args kwargs) (<[fresh (dom h) := HDict ∅]> h)).
    rewrite Hev in Hframe. cbn [snd] in Hframe.
    rewrite lookup_insert_ne in Hframe by done. congruence.
Qed.

Lemma M__call___frame_witness :
  Scenario.h1 !! Scenario.f = Some (HFunction Scenario.fn1)
  /\ (forall req h1, snd (Scenario.adder req h1) !! Scenario.f = h1 !! Scenario.f)
  /\ fst (run Scenario.adder (M__call__ Scenario.f (Some [OInt 2; OInt 3]) None Scenario.h1))
     = Ok (OInt 5)
  /\ snd (run Scenario.adder (M__call__ Scenario.f (Some [OInt 2; OInt 3]) None Scenario.h1))
       !! Scenario.f = Some (HFunction Scenario.fn1)
  /\ fst (run Scenario.adder (M__call__ Scenario.f (Some [OString "a"]) None Scenario.h1))
     = Panic (PError "bad operands")
  /\ snd (run Scenario.adder (M__call__ Scenario.f (Some [OString "a"]) None Scenario.h1))
       !! Scenario.f = Some (HFunction Scenario.fn1).
Proof.
  assert (Hadder : forall req h1, snd (Scenario.adder req h1) !! Scenario.f = h1 !! Scenario.f).
  { intros req h1. unfold Scenario.adder.
    destruct (req_args req) as [[|[] [|[] [|]]]|]; reflexivity. }
  split; [vm_compute; reflexivity|].
  split; [exact Hadder|].
  split; [vm_compute; reflexivity|].
  split.
  - apply (proj2 (M__call___frame Scenario.adder Scenario.h1 Scenario.f Scenario.fn1
                    (Some [OInt 2; OInt 3]) None ltac:(vm_compute; reflexivity))).
    exact Hadder.
  - split; [vm_compute; reflexivity|].
    apply (proj2 (M__call___frame Scenario.adder Scenario.h1 Scenario.f Scenario.fn1
                    (Some [OString "a"]) None ltac:(vm_compute; reflexivity))).
    exact Hadder.
Defined.

(** Code that, when evaluated, renames the function it runs in, as a body
    [f.__name__ = "renamed"] does through the [__name__] setter. *)
Definition renamer : Evaluator string :=
  fun req h =>
    ((ONone, None), snd (Fset_name (error := string) (OFunction Scenario.f)
                           (OString "renamed") h)).

(** C9 as stated fails: the call below returns normally and the name of
    the function object is another one after it than before it. *)
Lemma M__call___renamed_during_call :
  Scenario.h1 !! Scenario.f = Some (HFunction Scenario.fn1)
  /\ fst (run renamer (M__call__ Scenario.f (Some []) None Scenario.h1)) = Ok ONone
  /\ snd (run renamer (M__call__ Scenario.f (Some []) None Scenario.h1)) !! Scenario.f
     = Some (HFunction (set_Name "renamed" Scenario.fn1))
  /\ Name (set_Name "renamed" Scenario.fn1) <> Name Scenario.fn1.
Proof.
  split; [vm_compute; reflexivity|].
  split; [vm_compute; reflexivity|].
  split; [vm_compute; reflexivity|].
  vm_compute. discriminate.
Qed.

(** ** Binding *)

Lemma isNone_spec (o : Object) : isNone o = true <-> o = ONone.
Proof. destruct o; cbn; split; intros; congruence. Qed.

Lemma M__get___bound {error} (h : Heap) (f : loc) (instance owner : Object) :
  instance <> ONone ->
  M__get__ (error := error) f instance owner h
  = (Ok (OBoundMethod (fresh (dom h))),
     <[fresh (dom h) := HBoundMethod instance (OFunction f)]> h).
Proof.
  intros Hne. unfold M__get__.
  destruct (isNone instance) eqn:E; [by apply isNone_spec in E|reflexivity].
Qed.

(** C4.  Read with the instance [None], a function object comes back as
    the same address and the heap is not touched; read with any other
    instance, the result is a bound method at a new address of the heap
    that pairs the instance with the function, and nothing else changes. *)
Theorem M__get___binds {error} (h : Heap) (f : loc) (instance owner : Object) :
  (instance = ONone ->
     M__get__ (error := error) f instance owner h = (Ok (OFunction f), h))
  /\ (instance <> ONone ->
      exists m,
        h !! m = None
        /\ M__get__ (error := error) f instance owner h
           = (Ok (OBoundMethod m), <[m := HBoundMethod instance (OFunction f)]> h)).
Proof.
  split.
  - intros ->. reflexivity.
  - intros Hne. exists (fresh (dom h)).
    split; [apply alloc_fresh; exact (HDict ∅)|by apply M__get___bound].
Qed.

Lemma M__get___binds_witness :
  M__get__ (error := string) Scenario.f ONone (OString "owner") Scenario.h1
  = (Ok (OFunction Scenario.f), Scenario.h1)
  /\ OInt 7 <> ONone
  /\ exists m,
       Scenario.h1 !! m = None
       /\ M__get__ (error := string) Scenario.f (OInt 7) (OString "owner") Scenario.h1
          = (Ok (OBoundMethod m),
             <[m := HBoundMethod (OInt 7) (OFunction Scenario.f)]> Scenario.h1).
Proof.
  split.
  - apply (proj1 (M__get___binds Scenario.h1 Scenario.f ONone (OString "owner"))). reflexivity.
  - split; [discriminate|].
    apply (proj2 (M__get___binds Scenario.h1 Scenario.f (OInt 7) (OString "owner"))).
    discriminate.
Defined.

(** C10.  The instance that means "no instance" is [None] itself and
    nothing else.  For every owner, also when [None] is the object the
    attribute was read from, the result is the function itself, at the same
    address and with the heap untouched, exactly when the instance is
    [None]; and exactly when the instance is any other value the result is
    a bound method at an address that was free, whose cell pairs that
    instance with the function, the rest of the heap being as before. *)
Theorem M__get___sentinel_is_None {error} (h : Heap) (f : loc) (instance owner : Object) :
  (M__get__ (error := error) f instance owner h = (Ok (OFunction f), h)
   <-> instance = ONone)
  /\ ((exists m,
         h !! m = None
         /\ M__get__ (error := error) f instance owner h
            = (Ok (OBoundMethod m), <[m := HBoundMethod instance (OFunction f)]> h))
      <-> instance <> ONone).
Proof.
  destruct (decide (isNone instance = true)) as [E|E].
  - apply isNone_spec in E as ->. split; split; try done.
    intros (m & _ & Hm). discriminate Hm.
  - assert (Hne : instance <> ONone) by (by rewrite <- isNone_spec).
    rewrite (M__get___bound _ _ _ _ Hne). split; split; try done.
    intros _. exists (fresh (dom h)). split; [apply alloc_fresh; exact (HDict ∅)|done].
Qed.

Lemma M__get___sentinel_is_None_witness :
  M__get__ (error := string) Scenario.f ONone ONone Scenario.h1
  = (Ok (OFunction Scenario.f), Scenario.h1)
  /\ OTuple None <> ONone
  /\ exists m,
       Scenario.h1 !! m = None
       /\ M__get__ (error := string) Scenario.f (OTuple None) ONone Scenario.h1
          = (Ok (OBoundMethod m),
             <[m := HBoundMethod (OTuple None) (OFunction Scenario.f)]> Scenario.h1).
Proof.
  split.
  - apply (proj1 (M__get___sentinel_is_None Scenario.h1 Scenario.f ONone ONone)). reflexivity.
  - split; [discriminate|].
    apply (proj2 (M__get___sentinel_is_None Scenario.h1 Scenario.f (OTuple None) ONone)).
    discriminate.
Defined.

(** ** The property table *)

(** The accessors [FunctionType.Dict] holds under a name. *)
Definition getterOf {error} (name : string) : option (Object -> M error Object) :=
  match FunctionType_Dict !! name with
  | Some p => Fget p
  | None => None
  end.

Definition setterOf {error} (name : string) : option (Object -> Object -> M error unit) :=
  match FunctionType_Dict !! name with
  | Some p => Fset p
  | None => None
  end.

Definition deleterOf {error} (name : string) : option (Object -> M error unit) :=
  match FunctionType_Dict !! name with
  | Some p => Fdel p
  | None => None
  end.

(** The failure of a setter that rejects a value: a [TypeError] that names
    the attribute and what it must be set to. *)
Definition typeMismatch {error} (name expected : string) : PanicValue error :=
  PException (ExceptionNewf TypeError (name ++ " must be set to a " ++ expected ++ " object")).

Lemma FunctionType_Dict_entries {error} (name : string) (p : Property error) :
  FunctionType_Dict !! name = Some p ->
  (name = "__code__"
   /\ p = {| Fget := Some Fget_code; Fset := Some Fset_code; Fdel := None |})
  \/ (name = "__defaults__"
      /\ p = {| Fget := Some Fget_defaults; Fset := Some Fset_defaults;
                Fdel := Some Fdel_defaults |})
  \/ (name = "__kwdefaults__"
      /\ p = {| Fget := Some Fget_kwdefaults; Fset := Some Fset_kwdefaults;
                Fdel := Some Fdel_kwdefaults |})
  \/ (name = "__annotations__"
      /\ p = {| Fget := Some Fget_annotations; Fset := Some Fset_annotations;
                Fdel := Some Fdel_annotations |})
  \/ (name = "__dict__"
      /\ p = {| Fget := Some Fget_dict; Fset := Some Fset_dict; Fdel := Some Fdel_dict |})
  \/ (name = "__name__"
      /\ p = {| Fget := Some Fget_name; Fset := Some Fset_name; Fdel := None |})
  \/ (name = "__qualname__"
      /\ p = {| Fget := Some Fget_qualname; Fset := Some Fset_qualname; Fdel := None |}).
Proof.
  unfold FunctionType_Dict. intros H.
  repeat (apply lookup_insert_Some in H as [[<- <-]|[_ H]]; [tauto|]).
  by rewrite lookup_empty in H.
Qed.

Lemma accessors_code {error} :
  getterOf (error := error) "__code__" = Some Fget_code
  /\ setterOf (error := error) "__code__" = Some Fset_code
  /\ deleterOf (error := error) "__code__" = None.
Proof. repeat split. Qed.

Lemma accessors_defaults {error} :
  getterOf (error := error) "__defaults__" = Some Fget_defaults
  /\ setterOf (error := error) "__defaults__" = Some Fset_defaults
  /\ deleterOf (error := error) "__defaults__" = Some Fdel_defaults.
Proof. repeat split. Qed.

Lemma accessors_kwdefaults {error} :
  getterOf (error := error) "__kwdefaults__" = Some Fget_kwdefaults
  /\ setterOf (error := error) "__kwdefaults__" = Some Fset_kwdefaults
  /\ deleterOf (error := error) "__kwdefaults__" = Some Fdel_kwdefaults.
Proof. repeat split. Qed.

Lemma accessors_annotations {error} :
  getterOf (error := error) "__annotations__" = Some Fget_annotations
  /\ setterOf (error := error) "__annotations__" = Some Fset_annotations
  /\ deleterOf (error := error) "__annotations__" = Some Fdel_annotations.
Proof. repeat split. Qed.

Lemma accessors_dict {error} :
  getterOf (error := error) "__dict__" = Some Fget_dict
  /\ setterOf (error := error) "__dict__" = Some Fset_dict
  /\ deleterOf (error := error) "__dict__" = Some Fdel_dict.
Proof. repeat split. Qed.

Lemma accessors_name {error} :
  getterOf (error := error) "__name__" = Some Fget_name
  /\ setterOf (error := error) "__name__" = Some Fset_name
  /\ deleterOf (error := error) "__name__" = None.
Proof. repeat split. Qed.

Lemma accessors_qualname {error} :
  getterOf (error := error) "__qualname__" = Some Fget_qualname
  /\ setterOf (error := error) "__qualname__" = Some Fset_qualname
  /\ deleterOf (error := error) "__qualname__" = None.
Proof. repeat split. Qed.

(** Replaces the accessors found in the table by their definitions. *)
Ltac resolve_accessors lem :=
  destruct lem as (?Eget & ?Eset & ?Edel);
  repeat match goal with
  | E : ?t = Some _, H : ?t = Some _ |- _ =>
      rewrite E in H; injection H as <-; clear E
  | E : ?t = None, H : ?t = Some _ |- _ =>
      rewrite E in H; discriminate H
  end.

(** ** [__defaults__] *)

(** C6, as the code has it.  The setter that the table holds for
    [__defaults__] takes every tuple (the set succeeds and the getter then
    returns that tuple) and rejects every value of another type, a list
    included, with a [TypeError], the heap and so the defaults staying as
    they were; the deleter makes the defaults nil, which is what the getter
    then returns. *)
Theorem defaults_accessors {error} (h : Heap) (f : loc) (fn : Function)
    (get : Object -> M error Object) (set : Object -> Object -> M error unit)
    (del : Object -> M error unit) (value : Object) :
  h !! f = Some (HFunction fn) ->
  getterOf "__defaults__" = Some get ->
  setterOf "__defaults__" = Some set ->
  deleterOf "__defaults__" = Some del ->
  (isTuple value = true ->
     exists h', set (OFunction f) value h = (Ok tt, h')
                /\ get (OFunction f) h' = (Ok value, h'))
  /\ (isTuple value = false ->
        set (OFunction f) value h = (Panic (typeMismatch "__defaults__" "tuple"), h)
        /\ get (OFunction f) h = (Ok (OTuple (Defaults fn)), h))
  /\ (exists h', del (OFunction f) h = (Ok tt, h')
                 /\ get (OFunction f) h' = (Ok (OTuple None), h')).
Proof.
  intros Hf Hget Hset Hdel.
  resolve_accessors (accessors_defaults (error := error)).
  split; [|split].
  - destruct value; try discriminate. intros _. eexists. split.
    + unfold Fset_defaults. run_property Hf. reflexivity.
    + unfold Fget_defaults. run_property Hf. reflexivity.
  - intros Hv. split.
    + unfold Fset_defaults. run_property Hf. by destruct value.
    + unfold Fget_defaults. run_property Hf. reflexivity.
  - eexists. split.
    + unfold Fdel_defaults. run_property Hf. reflexivity.
    + unfold Fget_defaults. run_property Hf. reflexivity.
Qed.

Lemma defaults_accessors_witness :
  Scenario.h1 !! Scenario.f = Some (HFunction Scenario.fn1)
  /\ getterOf (error := string) "__defaults__" = Some Fget_defaults
  /\ setterOf (error := string) "__defaults__" = Some Fset_defaults
  /\ deleterOf (error := string) "__defaults__" = Some Fdel_defaults
  /\ isTuple (OTuple (Some [OInt 1])) = true
  /\ exists h',
       Fset_defaults (error := string) (OFunction Scenario.f) (OTuple (Some [OInt 1])) Scenario.h1
       = (Ok tt, h')
       /\ Fget_defaults (error := string) (OFunction Scenario.f) h'
          = (Ok (OTuple (Some [OInt 1])), h').
Proof.
  split; [vm_compute; reflexivity|].
  do 4 (split; [reflexivity|]).
  apply (proj1 (defaults_accessors (error := string) Scenario.h1 Scenario.f Scenario.fn1
                  Fget_defaults Fset_defaults Fdel_defaults (OTuple (Some [OInt 1]))
                  ltac:(vm_compute; reflexivity) eq_refl eq_refl eq_refl)).
  reflexivity.
Defined.

(** The ordered sequences among the values: tuples and lists. *)
Definition isOrderedSequence (o : Object) : bool :=
  match o with
  | OTuple _ | OList _ => true
  | _ => false
  end.

(** C6 as stated fails: the list [[1]] is an ordered sequence and the
    setter refuses it; the defaults stay nil. *)
Lemma defaults_setter_refuses_list :
  Scenario.h1 !! Scenario.f = Some (HFunction Scenario.fn1)
  /\ isOrderedSequence (OList (Some [OInt 1])) = true
  /\ Fset_defaults (error := string) (OFunction Scenario.f) (OList (Some [OInt 1])) Scenario.h1
     = (Panic (PException
          {| Base := TypeError; Message := "__defaults__ must be set to a tuple object" |}),
        Scenario.h1)
  /\ Fget_defaults (error := string) (OFunction Scenario.f) Scenario.h1
     = (Ok (OTuple None), Scenario.h1).
Proof.
  split; [vm_compute; reflexivity|].
  split; [reflexivity|].
  split; vm_compute; reflexivity.
Qed.

(** ** Setters that check the type of the value *)

(** C7.  The setters that the table holds for [__kwdefaults__],
    [__annotations__] and [__dict__] reject every value that is not a
    [StringDict], and those for [__name__] and [__qualname__] every value
    that is not a [String]: the set panics with a [TypeError] whose message
    names the attribute and the type it must be set to, and the heap, so
    the function object, stays as it was.  A value of the accepted type
    makes the set succeed, and the getter of the same name then returns
    it. *)
Theorem setters_check_types {error} (h : Heap) (f : loc) (fn : Function) (name : string)
    (get : Object -> M error Object) (set : Object -> Object -> M error unit)
    (value : Object) :
  h !! f = Some (HFunction fn) ->
  getterOf name = Some get ->
  setterOf name = Some set ->
  (name ∈ ["__kwdefaults__"; "__annotations__"; "__dict__"] ->
     (isStringDict value = false ->
        set (OFunction f) value h = (Panic (typeMismatch name "dict"), h))
     /\ (isStringDict value = true ->
           exists h', set (OFunction f) value h = (Ok tt, h')
                      /\ get (OFunction f) h' = (Ok value, h')))
  /\ (name ∈ ["__name__"; "__qualname__"] ->
        (isString value = false ->
           set (OFunction f) value h = (Panic (typeMismatch name "string"), h))
        /\ (isString value = true ->
              exists h', set (OFunction f) value h = (Ok tt, h')
                         /\ get (OFunction f) h' = (Ok value, h'))).
Proof.
  intros Hf Hget Hset. split; intros Hname.
  - repeat (apply elem_of_cons in Hname as [->|Hname]); [| | |by apply elem_of_nil in Hname].
    + resolve_accessors (accessors_kwdefaults (error := error)). split; intros Hv.
      * unfold Fset_kwdefaults. run_property Hf. by destruct value.
      * destruct value; try discriminate. eexists. split.
        -- unfold Fset_kwdefaults. run_property Hf. reflexivity.
        -- unfold Fget_kwdefaults. run_property Hf. reflexivity.
    + resolve_accessors (accessors_annotations (error := error)). split; intros Hv.
      * unfold Fset_annotations. run_property Hf. by destruct value.
      * destruct value; try discriminate. eexists. split.
        -- unfold Fset_annotations. run_property Hf. reflexivity.
        -- unfold Fget_annotations. run_property Hf. reflexivity.
    + resolve_accessors (accessors_dict (error := error)). split; intros Hv.
      * unfold Fset_dict. run_property Hf. by destruct value.
      * destruct value; try discriminate. eexists. split.
        -- unfold Fset_dict. run_property Hf. reflexivity.
        -- unfold Fget_dict. run_property Hf. reflexivity.
  - repeat (apply elem_of_cons in Hname as [->|Hname]); [| |by apply elem_of_nil in Hname].
    + resolve_accessors (accessors_name (error := error)). split; intros Hv.
      * unfold Fset_name. run_property Hf. by destruct value.
      * destruct value; try discriminate. eexists. split.
        -- unfold Fset_name. run_property Hf. reflexivity.
        -- unfold Fget_name. run_property Hf. reflexivity.
    + resolve_accessors (accessors_qualname (error := error)). split; intros Hv.
      * unfold Fset_qualname. run_property Hf. by destruct value.
      * destruct value; try discriminate. eexists. split.
        -- unfold Fset_qualname. run_property Hf. reflexivity.
        -- unfold Fget_qualname. run_property Hf. reflexivity.
Qed.

Lemma setters_check_types_witness :
  Scenario.h1 !! Scenario.f = Some (HFunction Scenario.fn1)
  /\ getterOf (error := string) "__annotations__" = Some Fget_annotations
  /\ setterOf (error := string) "__annotations__" = Some Fset_annotations
  /\ "__annotations__" ∈ ["__kwdefaults__"; "__annotations__"; "__dict__"]
  /\ isStringDict (OInt 3) = false
  /\ Fset_annotations (error := string) (OFunction Scenario.f) (OInt 3) Scenario.h1
     = (Panic (PException
          {| Base := TypeError; Message := "__annotations__ must be set to a dict object" |}),
        Scenario.h1).
Proof.
  assert (Hin : "__annotations__" ∈ ["__kwdefaults__"; "__annotations__"; "__dict__"])
    by (apply list_elem_of_further, list_elem_of_here).
  split; [vm_compute; reflexivity|].
  do 2 (split; [reflexivity|]).
  split; [exact Hin|].
  split; [reflexivity|].
  apply (proj1 (proj1 (setters_check_types (error := string) Scenario.h1 Scenario.f
                         Scenario.fn1 "__annotations__" Fget_annotations Fset_annotations
                         (OInt 3) ltac:(vm_compute; reflexivity) eq_refl eq_refl) Hin)).
  reflexivity.
Defined.

(** ** Deleters *)

(** What the getter of an optional field returns when the field is nil. *)
Definition absent (name : string) : Object :=
  if String.eqb name "__defaults__" then OTuple None else OStringDict None.

Lemma set_Defaults_absent (fn : Function) : Defaults fn = None -> set_Defaults None fn = fn.
Proof. destruct fn; cbn. by intros ->. Qed.

Lemma set_KwDefaults_absent (fn : Function) : KwDefaults fn = None -> set_KwDefaults None fn = fn.
Proof. destruct fn; cbn. by intros ->. Qed.

Lemma set_Annotations_absent (fn : Function) : Annotations fn = None -> set_Annotations None fn = fn.
Proof. destruct fn; cbn. by intros ->. Qed.

Lemma set_Dict_absent (fn : Function) : Dict fn = None -> set_Dict None fn = fn.
Proof. destruct fn; cbn. by intros ->. Qed.

(** C8.  For each of [__defaults__], [__kwdefaults__], [__annotations__]
    and [__dict__], the deleter of the table succeeds on every function
    object and the getter then returns the nil value of the field; a delete
    of a field that is nil already leaves the heap as it is, so a second
    delete changes nothing after the first. *)
Theorem deleters_idempotent {error} (h : Heap) (f : loc) (fn : Function) (name : string)
    (get : Object -> M error Object) (del : Object -> M error unit) :
  h !! f = Some (HFunction fn) ->
  name ∈ ["__defaults__"; "__kwdefaults__"; "__annotations__"; "__dict__"] ->
  getterOf name = Some get ->
  deleterOf name = Some del ->
  exists h',
    del (OFunction f) h = (Ok tt, h')
    /\ get (OFunction f) h' = (Ok (absent name), h')
    /\ del (OFunction f) h' = (Ok tt, h')
    /\ (get (OFunction f) h = (Ok (absent name), h) -> h' = h).
Proof.
  intros Hf Hname Hget Hdel.
  repeat (apply elem_of_cons in Hname as [->|Hname]); [| | | |by apply elem_of_nil in Hname].
  - resolve_accessors (accessors_defaults (error := error)).
    exists (<[f := HFunction (set_Defaults None fn)]> h). repeat split.
    + unfold Fdel_defaults. run_property Hf. reflexivity.
    + unfold Fget_defaults. run_property Hf. reflexivity.
    + unfold Fdel_defaults. run_property Hf. by rewrite insert_insert_eq.
    + unfold Fget_defaults. run_property Hf. intros [= E].
      rewrite set_Defaults_absent by done. by apply insert_id.
  - resolve_accessors (accessors_kwdefaults (error := error)).
    exists (<[f := HFunction (set_KwDefaults None fn)]> h). repeat split.
    + unfold Fdel_kwdefaults. run_property Hf. reflexivity.
    + unfold Fget_kwdefaults. run_property Hf. reflexivity.
    + unfold Fdel_kwdefaults. run_property Hf. by rewrite insert_insert_eq.
    + unfold Fget_kwdefaults. run_property Hf. intros [= E].
      rewrite set_KwDefaults_absent by done. by apply insert_id.
  - resolve_accessors (accessors_annotations (error := error)).
    exists (<[f := HFunction (set_Annotations None fn)]> h). repeat split.
    + unfold Fdel_annotations. run_property Hf. reflexivity.
    + unfold Fget_annotations. run_property Hf. reflexivity.
    + unfold Fdel_annotations. run_property Hf. by rewrite insert_insert_eq.
    + unfold Fget_annotations. run_property Hf. intros [= E].
      rewrite set_Annotations_absent by done. by apply insert_id.
  - resolve_accessors (accessors_dict (error := error)).
    exists (<[f := HFunction (set_Dict None fn)]> h). repeat split.
    + unfold Fdel_dict. run_property Hf. reflexivity.
    + unfold Fget_dict. run_property Hf. reflexivity.
    + unfold Fdel_dict. run_property Hf. by rewrite insert_insert_eq.
    + unfold Fget_dict. run_property Hf. intros [= E].
      rewrite set_Dict_absent by done. by apply insert_id.
Qed.

Lemma deleters_idempotent_witness :
  Scenario.h1 !! Scenario.f = Some (HFunction Scenario.fn1)
  /\ "__kwdefaults__" ∈ ["__defaults__"; "__kwdefaults__"; "__annotations__"; "__dict__"]
  /\ getterOf (error := string) "__kwdefaults__" = Some Fget_kwdefaults
  /\ deleterOf (error := string) "__kwdefaults__" = Some Fdel_kwdefaults
  /\ exists h',
       Fdel_kwdefaults (error := string) (OFunction Scenario.f) Scenario.h1 = (Ok tt, h')
       /\ Fget_kwdefaults (error := string) (OFunction Scenario.f) h'
          = (Ok (OStringDict None), h')
       /\ Fdel_kwdefaults (error := string) (OFunction Scenario.f) h' = (Ok tt, h')
       /\ (Fget_kwdefaults (error := string) (OFunction Scenario.f) Scenario.h1
           = (Ok (OStringDict None), Scenario.h1) -> h' = Scenario.h1).
Proof.
  assert (Hin : "__kwdefaults__"
                ∈ ["__defaults__"; "__kwdefaults__"; "__annotations__"; "__dict__"])
    by (apply list_elem_of_further, list_elem_of_here).
  split; [vm_compute; reflexivity|].
  split; [exact Hin|].
  do 2 (split; [reflexivity|]).
  exact (deleters_idempotent (error := string) Scenario.h1 Scenario.f Scenario.fn1
           "__kwdefaults__" Fget_kwdefaults Fdel_kwdefaults
           ltac:(vm_compute; reflexivity) Hin eq_refl eq_refl).
Defined.

(** ** The closure and the code's free variables *)

(** A computation after which the function object at [f] still has a
    closure that fits its code, whatever the outcome. *)
Definition keepsArity {error A} (f : loc) (m : M error A) : Prop :=
  forall h, arityHoldsAt h f -> arityHoldsAt (snd (m h)) f.

Lemma keepsArity_ret {error A} (f : loc) (a : A) : keepsArity f (ret (error := error) a).
Proof. by intros h Hh. Qed.

Lemma keepsArity_panic {error A} (f : loc) (p : PanicValue error) :
  keepsArity f (panic (A := A) p).
Proof. by intros h Hh. Qed.

Lemma keepsArity_bind {error A B} (f : loc) (m : M error A) (k : A -> M error B) :
  keepsArity f m -> (forall a, keepsArity f (k a)) -> keepsArity f (bind m k).
Proof.
  intros Hm Hk h Hh. unfold bind. specialize (Hm h Hh).
  destruct (m h) as [[a|p] h']; [by apply Hk|done].
Qed.

Lemma keepsArity_assertFunction {error} (f : loc) (self : Object) :
  keepsArity f (assertFunction (error := error) self).
Proof. by destruct self; intros h Hh. Qed.

Lemma keepsArity_load {error} (f g : loc) : keepsArity f (load (error := error) g).
Proof. intros h Hh. unfold load. by destruct (h !! g) as [[]|]. Qed.

Lemma keepsArity_derefCode {error} (f : loc) (code : option Code) :
  keepsArity f (derefCode (error := error) code).
Proof. by destruct code; intros h Hh. Qed.

Lemma arityHoldsAt_insert (h : Heap) (f g : loc) (fn : Function) :
  (g = f -> closureArityOk fn = true) ->
  arityHoldsAt h f -> arityHoldsAt (<[g := HFunction fn]> h) f.
Proof.
  intros Hok (fn' & Hf & Hok'). destruct (decide (g = f)) as [->|Hne].
  - exists fn. rewrite lookup_insert_eq. auto.
  - exists fn'. by rewrite lookup_insert_ne.
Qed.


(** An assignment that touches neither the code nor the closure. *)
Lemma keepsArity_assign {error} (f g : loc) (upd : Function -> Function) :
  (forall fn, Code_ (upd fn) = Code_ fn /\ Closure (upd fn) = Closure fn) ->
  keepsArity f (assign (error := error) g upd).
Proof.
  intros Hupd h Hh. unfold assign, bind, load, store.
  destruct (h !! g) as [[fn| |]|] eqn:Hg; try done. cbn [snd].
  apply arityHoldsAt_insert; [|done]. intros ->.
  destruct Hh as (fn' & Hf & Hok). assert (fn' = fn) as -> by congruence.
  unfold closureArityOk in *. by destruct (Hupd fn) as [-> ->].
Qed.

(** The [__code__] setter: the new code has as many free variables as the
    closure has cells. *)
Lemma keepsArity_Fset_code {error} (f : loc) (self value : Object) :
  keepsArity f (Fset_code (error := error) self value).
Proof.
  intros h Hh. unfold Fset_code, bind.
  destruct self; try done. cbn [assertFunction ret].
  destruct value as [| | | | | | |[c|]| |]; try done. cbn [derefCode ret].
  unfold load. destruct (h !! f0) as [[fn| |]|] eqn:Hg; try done.
  destruct (Nat.eqb_spec (len (CodeFields.Freevars c)) (len (Closure fn))) as [E|E];
    cbn [negb]; [|done].
  unfold assign, bind, load, store. rewrite Hg. cbn [snd].
  apply arityHoldsAt_insert; [|done]. intros _.
  unfold closureArityOk. cbn. rewrite E, Nat.eqb_refl. by rewrite !orb_true_r.
Qed.

Create HintDb arity.

#[local] Hint Resolve keepsArity_ret keepsArity_panic keepsArity_assertFunction
  keepsArity_load keepsArity_derefCode keepsArity_Fset_code : arity.

(** Closes the goal for a getter, a deleter or a setter of a field other
    than the code. *)
Ltac keeps_arity :=
  repeat first
    [ solve [auto with arity]
    | apply keepsArity_assign; intros ?; split; reflexivity
    | apply keepsArity_bind; [auto with arity|intros ?]
    | match goal with |- keepsArity _ (match ?v with _ => _ end) => destruct v end ].


Module Captured.



Definition f : loc := 5%positive.

(** A function over [Scenario.inner] with the one cell its free variable
    needs; only the number of cells matters here, so [None] stands in the
    cell's place. *)
Definition fn : Function :=
  {| Code_ := Some Scenario.inner; Globals := None; Defaults := None; KwDefaults := None;
     Closure := Some [ONone]; Doc := ONone; Name := "inner"; Dict := None;
     Weakreflist := None; Module_ := ONone; Annotations := None; Qualname := "inner" |}.

Definition h : Heap := {[ f := HFunction fn ]}.


End Captured.



(** * Further properties of [function.go] *)

(** ** [GetDict] *)

Definition GetDict {error} (f : loc) : M error StringDict :=
  bind (load f) (fun fn => ret (Dict fn)).

(** ** Case analysis on one accessor *)

(** Unfolds the accessors of the table down to heap lookups. *)
Ltac unfold_accessors :=
  unfold Fget_code, Fget_defaults, Fget_kwdefaults, Fget_annotations, Fget_dict,
    Fget_name, Fget_qualname, Fset_code, Fset_defaults, Fset_kwdefaults,
    Fset_annotations, Fset_dict, Fset_name, Fset_qualname, Fdel_defaults,
    Fdel_kwdefaults, Fdel_annotations, Fdel_dict, GetDict in *;
  unfold assign, assertFunction, derefCode in *;
  unfold bind, store, load, ret, panic in *;
  cbn beta iota zeta in *.

(** Splits a table entry into the seven that [init] installs. *)
Ltac each_entry H :=
  apply FunctionType_Dict_entries in H;
  destruct H as [[-> ->]|[[-> ->]|[[-> ->]|[[-> ->]|[[-> ->]|[[-> ->]|[-> ->]]]]]]];
  cbn [Fget Fset Fdel] in *.

(** Splits on what a scrutinised lookup, object or test is. *)
Ltac split_cases :=
  repeat (cbn beta iota zeta; cbn [negb fst snd];
    match goal with
    | H : ?h !! ?f = _ |- context [?h !! ?f] => rewrite H
    | |- context [<[?f := _]> _ !! ?f] => rewrite lookup_insert_eq
    | |- context [match ?x with _ => _ end] => is_var x; destruct x
    | |- context [(?a =? ?b)%nat] => destruct (Nat.eqb_spec a b)
    | |- context [match ?h !! ?f with _ => _ end] => is_var h; destruct (h !! f) eqn:?
    end);
  cbn beta iota zeta; cbn [negb fst snd].

(** ** What getters and failures leave alone *)

(** X1.  Getters only read: whatever object a getter of the table is
    applied to, the heap after it is the heap before it. *)
Theorem getters_read_only {error} (h : Heap) (name : string) (p : Property error)
    (get : Object -> M error Object) (self : Object) :
  FunctionType_Dict !! name = Some p ->
  Fget p = Some get ->
  snd (get self h) = h.
Proof.
  intros Hp Hget. each_entry Hp; simplify_eq; unfold_accessors; by split_cases.
Qed.

Lemma getters_read_only_witness :
  FunctionType_Dict (error := string) !! "__name__"
  = Some {| Fget := Some Fget_name; Fset := Some Fset_name; Fdel := None |}
  /\ snd (Fget_name (error := string) (OFunction Scenario.f) Scenario.h1) = Scenario.h1
  /\ snd (Fget_name (error := string) (OInt 3) Scenario.h1) = Scenario.h1.
Proof.
  split; [reflexivity|]. split.
  - exact (getters_read_only (error := string) Scenario.h1 "__name__" _ Fget_name
             (OFunction Scenario.f) eq_refl eq_refl).
  - exact (getters_read_only (error := string) Scenario.h1 "__name__" _ Fget_name
             (OInt 3) eq_refl eq_refl).
Defined.

(** X2.  A setter or deleter of the table that panics, for whatever
    reason (a value of the wrong type, a code object that does not fit the
    closure, a receiver that is no function), has not changed the heap. *)
Theorem failed_accessor_changes_nothing {error} (h h' : Heap) (name : string)
    (p : Property error) (self value : Object) (e : PanicValue error) :
  FunctionType_Dict !! name = Some p ->
  (forall set, Fset p = Some set -> set self value h = (Panic e, h') -> h' = h)
  /\ (forall del, Fdel p = Some del -> del self h = (Panic e, h') -> h' = h).
Proof.
  intros Hp.
  each_entry Hp; split; intros op Hop; simplify_eq; unfold_accessors;
    split_cases; intros; simplify_eq; reflexivity.
Qed.

Lemma failed_accessor_changes_nothing_witness :
  FunctionType_Dict (error := string) !! "__code__"
  = Some {| Fget := Some Fget_code; Fset := Some Fset_code; Fdel := None |}
  /\ Fset_code (error := string) (OFunction Scenario.f) (OString "code") Scenario.h1
     = (Panic (typeMismatch "__code__" "code"), Scenario.h1).
Proof.
  split; [reflexivity|].
  destruct (Fset_code (error := string) (OFunction Scenario.f) (OString "code") Scenario.h1)
    as [r h'] eqn:E.
  assert (Hr : r = Panic (typeMismatch "__code__" "code")).
  { vm_compute in E. by injection E as <- _. }
  subst r.
  by rewrite (proj1 (failed_accessor_changes_nothing (error := string) Scenario.h1 h'
                       "__code__" _ (OFunction Scenario.f) (OString "code") _ eq_refl)
                _ eq_refl E).
Defined.

(** ** What no accessor writes *)

(** The writes a property offers on [self]: its setter with [value] and
    its deleter, as far as it has them. *)
Definition writesOf {error} (p : Property error) (self value : Object) : list (M error unit) :=
  match Fset p with Some set => [set self value] | None => [] end
  ++ match Fdel p with Some del => [del self] | None => [] end.

(** Splits a write of a property into the setter and the deleter. *)
Ltac each_write H :=
  unfold writesOf in H; cbn [Fget Fset Fdel app] in H;
  repeat (apply elem_of_cons in H as [->|H]); [..|by apply elem_of_nil in H].

(** X3.  A setter or deleter of the table writes at most the struct of
    its receiver: every other address of the heap keeps its cell; and in
    the receiver's struct the globals, the closure, the doc, the module and
    the list of weak references are never written. *)
Theorem accessors_frame {error} (h : Heap) (name : string) (p : Property error)
    (self value : Object) (op : M error unit) :
  FunctionType_Dict !! name = Some p ->
  op ∈ writesOf p self value ->
  (forall g, self <> OFunction g -> snd (op h) !! g = h !! g)
  /\ (forall f fn, self = OFunction f -> h !! f = Some (HFunction fn) ->
        exists fn', snd (op h) !! f = Some (HFunction fn')
                    /\ Globals fn' = Globals fn
                    /\ Closure fn' = Closure fn
                    /\ Doc fn' = Doc fn
                    /\ Module_ fn' = Module_ fn
                    /\ Weakreflist fn' = Weakreflist fn).
Proof.
  intros Hp Hop. each_entry Hp; each_write Hop; split.
  all: try (intros g Hg; unfold_accessors; split_cases; cbn [snd]; try done;
            rewrite lookup_insert_ne; [done|congruence]).
  all: intros f fn -> Hf; unfold_accessors; rewrite ?Hf; split_cases; cbn [snd];
    rewrite ?Hf, ?lookup_insert_eq; eexists; (split; [reflexivity|]); repeat split.
Qed.

Lemma accessors_frame_witness :
  FunctionType_Dict (error := string) !! "__name__"
  = Some {| Fget := Some Fget_name; Fset := Some Fset_name; Fdel := None |}
  /\ Fset_name (OFunction Scenario.f) (OString "plus")
     ∈ writesOf (error := string)
         {| Fget := Some Fget_name; Fset := Some Fset_name; Fdel := None |}
         (OFunction Scenario.f) (OString "plus")
  /\ snd (Fset_name (error := string) (OFunction Scenario.f) (OString "plus") Scenario.h1)
       !! Scenario.g
     = Scenario.h1 !! Scenario.g.
Proof.
  assert (Hin : Fset_name (OFunction Scenario.f) (OString "plus")
                ∈ writesOf (error := string)
                    {| Fget := Some Fget_name; Fset := Some Fset_name; Fdel := None |}
                    (OFunction Scenario.f) (OString "plus"))
    by apply list_elem_of_here.
  split; [reflexivity|]. split; [exact Hin|].
  apply (proj1 (accessors_frame (error := string) Scenario.h1 "__name__" _
                  (OFunction Scenario.f) (OString "plus") _ eq_refl Hin)).
  vm_compute. discriminate.
Defined.

(** ** How accessors compose *)

(** X4.  The attributes are independent: after the setter or the deleter
    of one name of the table, whether it succeeded or not, the getter of
    every other name returns what it returned before. *)
Theorem writes_leave_other_attributes {error} (h : Heap) (name1 name2 : string)
    (p1 p2 : Property error) (self value : Object) (op : M error unit)
    (get : Object -> M error Object) :
  FunctionType_Dict !! name1 = Some p1 ->
  FunctionType_Dict !! name2 = Some p2 ->
  name1 <> name2 ->
  op ∈ writesOf p1 self value ->
  Fget p2 = Some get ->
  fst (get self (snd (op h))) = fst (get self h).
Proof.
  intros Hp1 Hp2 Hne Hop Hget.
  each_entry Hp1; each_entry Hp2; try done; simplify_eq; each_write Hop;
    unfold_accessors; split_cases; reflexivity.
Qed.

Lemma writes_leave_other_attributes_witness :
  FunctionType_Dict (error := string) !! "__name__"
  = Some {| Fget := Some Fget_name; Fset := Some Fset_name; Fdel := None |}
  /\ FunctionType_Dict (error := string) !! "__qualname__"
     = Some {| Fget := Some Fget_qualname; Fset := Some Fset_qualname; Fdel := None |}
  /\ "__name__" <> "__qualname__"
  /\ fst (Fget_qualname (error := string) (OFunction Scenario.f)
            (snd (Fset_name (error := string) (OFunction Scenario.f) (OString "plus")
                    Scenario.h1)))
     = Ok (OString "add").
Proof.
  do 2 (split; [reflexivity|]). split; [discriminate|].
  rewrite (writes_leave_other_attributes (error := string) Scenario.h1
             "__name__" "__qualname__" _ _ (OFunction Scenario.f) (OString "plus")
             (Fset_name (OFunction Scenario.f) (OString "plus")) Fget_qualname
             eq_refl eq_refl ltac:(discriminate) ltac:(apply list_elem_of_here) eq_refl).
  vm_compute. reflexivity.
Defined.

(** X5.  The last write wins: when a setter of the table succeeds twice
    in a row on the same object, the heap is the one the second set alone
    would have given. *)
Theorem setter_overwrites {error} (h h1 h2 : Heap) (name : string) (p : Property error)
    (set : Object -> Object -> M error unit) (self v1 v2 : Object) :
  FunctionType_Dict !! name = Some p ->
  Fset p = Some set ->
  set self v1 h = (Ok tt, h1) ->
  set self v2 h1 = (Ok tt, h2) ->
  set self v2 h = (Ok tt, h2).
Proof.
  intros Hp Hset. revert h1 h2.
  each_entry Hp; simplify_eq; intros h1 h2; unfold_accessors; split_cases;
    intros; simplify_eq;
    repeat match goal with
    | H : context [<[?f := _]> _ !! ?f] |- _ => rewrite lookup_insert_eq in H
    end; cbn in *; simplify_eq; try done;
    rewrite ?insert_insert_eq; try done; try (exfalso; congruence).
Qed.

Lemma setter_overwrites_witness :
  FunctionType_Dict (error := string) !! "__name__"
  = Some {| Fget := Some Fget_name; Fset := Some Fset_name; Fdel := None |}
  /\ exists h1 h2,
       Fset_name (error := string) (OFunction Scenario.f) (OString "plus") Scenario.h1
       = (Ok tt, h1)
       /\ Fset_name (error := string) (OFunction Scenario.f) (OString "sum") h1 = (Ok tt, h2)
       /\ Fset_name (error := string) (OFunction Scenario.f) (OString "sum") Scenario.h1
          = (Ok tt, h2).
Proof.
  split; [reflexivity|].
  destruct (Fset_name (error := string) (OFunction Scenario.f) (OString "plus") Scenario.h1)
    as [r1 h1] eqn:E1.
  assert (r1 = Ok tt) as -> by (vm_compute in E1; by injection E1 as <- _).
  destruct (Fset_name (error := string) (OFunction Scenario.f) (OString "sum") h1)
    as [r2 h2] eqn:E2.
  assert (r2 = Ok tt) as ->.
  { assert (h1 = <[Scenario.f := HFunction (set_Name "plus" Scenario.fn1)]> Scenario.h1) as ->
      by (vm_compute in E1; injection E1 as <-; vm_compute; reflexivity).
    vm_compute in E2. by injection E2 as <- _. }
  exists h1, h2. split; [reflexivity|]. split; [exact E2|].
  exact (setter_overwrites (error := string) Scenario.h1 h1 h2 "__name__" _ Fset_name
           (OFunction Scenario.f) (OString "plus") (OString "sum") eq_refl eq_refl E1 E2).
Defined.

(** X6.  For the four attributes that can be deleted, a delete after a
    successful set gives what the delete alone gives, and a successful set
    after a delete gives what the set alone gives. *)
Theorem set_and_delete_compose {error} (h h1 : Heap) (name : string) (p : Property error)
    (set : Object -> Object -> M error unit) (del : Object -> M error unit)
    (self value : Object) :
  FunctionType_Dict !! name = Some p ->
  Fset p = Some set ->
  Fdel p = Some del ->
  (set self value h = (Ok tt, h1) -> del self h1 = del self h)
  /\ (del self h = (Ok tt, h1) ->
      forall h2, set self value h1 = (Ok tt, h2) -> set self value h = (Ok tt, h2)).
Proof.
  intros Hp Hset Hdel.
  each_entry Hp; simplify_eq; split; [|revert h1| |revert h1| |revert h1| |revert h1].
  all: try intros h1; unfold_accessors; split_cases; intros; simplify_eq;
    repeat match goal with
    | H : context [<[?f := _]> _ !! ?f] |- _ => rewrite lookup_insert_eq in H
    end; cbn in *; simplify_eq; rewrite ?lookup_insert_eq, ?insert_insert_eq; try done.
Qed.

Lemma set_and_delete_compose_witness :
  FunctionType_Dict (error := string) !! "__defaults__"
  = Some {| Fget := Some Fget_defaults; Fset := Some Fset_defaults;
            Fdel := Some Fdel_defaults |}
  /\ Fset_defaults (error := string) (OFunction Scenario.f) (OTuple (Some [OInt 1])) Scenario.h1
     = (Ok tt, <[Scenario.f := HFunction (set_Defaults (Some [OInt 1]) Scenario.fn1)]>
                 Scenario.h1)
  /\ Fdel_defaults (error := string) (OFunction Scenario.f)
       (<[Scenario.f := HFunction (set_Defaults (Some [OInt 1]) Scenario.fn1)]> Scenario.h1)
     = Fdel_defaults (OFunction Scenario.f) Scenario.h1.
Proof.
  split; [reflexivity|].
  assert (Hset : Fset_defaults (error := string) (OFunction Scenario.f)
                   (OTuple (Some [OInt 1])) Scenario.h1
                 = (Ok tt, <[Scenario.f := HFunction (set_Defaults (Some [OInt 1]) Scenario.fn1)]>
                             Scenario.h1))
    by (vm_compute; reflexivity).
  split; [exact Hset|].
  exact (proj1 (set_and_delete_compose (error := string) Scenario.h1 _ "__defaults__" _
                  Fset_defaults Fdel_defaults (OFunction Scenario.f) (OTuple (Some [OInt 1]))
                  eq_refl eq_refl eq_refl) Hset).
Defined.

(** ** The receiver and the value of [__code__] *)

Definition isFunction (o : Object) : bool :=
  match o with
  | OFunction _ => true
  | _ => false
  end.

Definition isCode (o : Object) : bool :=
  match o with
  | OCode _ => true
  | _ => false
  end.

(** X7.  Every getter, setter and deleter of the table asserts that its
    receiver is a function before anything else: on any other object it
    panics with a failed interface conversion of the Go runtime, not with a
    python exception, whatever the value is, and the heap is untouched. *)
Theorem accessors_assert_receiver {error} (h : Heap) (name : string) (p : Property error)
    (self value : Object) :
  FunctionType_Dict !! name = Some p ->
  isFunction self = false ->
  (forall get, Fget p = Some get -> get self h = (Panic (PRuntime InterfaceConversion), h))
  /\ (forall op, op ∈ writesOf p self value ->
        op h = (Panic (PRuntime InterfaceConversion), h)).
Proof.
  intros Hp Hself. split.
  - intros get Hget. each_entry Hp; simplify_eq; by destruct self.
  - intros op Hop. each_entry Hp; each_write Hop; by destruct self.
Qed.

Lemma accessors_assert_receiver_witness :
  FunctionType_Dict (error := string) !! "__dict__"
  = Some {| Fget := Some Fget_dict; Fset := Some Fset_dict; Fdel := Some Fdel_dict |}
  /\ isFunction (OString "f") = false
  /\ Fget_dict (error := string) (OString "f") Scenario.h1
     = (Panic (PRuntime InterfaceConversion), Scenario.h1).
Proof.
  do 2 (split; [reflexivity|]).
  exact (proj1 (accessors_assert_receiver (error := string) Scenario.h1 "__dict__" _
                  (OString "f") ONone eq_refl eq_refl) Fget_dict eq_refl).
Defined.

(** X8.  The [__code__] setter looks at the type of the value before it
    looks at the function: every value that is no code object is refused
    with a [TypeError], for every receiver that is a function, even one
    behind a nil pointer; and a nil [*Code] passes the type test and then
    panics in the Go runtime when its free variables are read.  The heap is
    untouched in both cases. *)
Theorem Fset_code_checks_type_first {error} (h : Heap) (f : loc) (value : Object) :
  (isCode value = false ->
     Fset_code (error := error) (OFunction f) value h
     = (Panic (typeMismatch "__code__" "code"), h))
  /\ (value = OCode None ->
      Fset_code (error := error) (OFunction f) value h
      = (Panic (PRuntime NilDereference), h)).
Proof.
  split.
  - intros Hv. by destruct value.
  - intros ->. reflexivity.
Qed.

Lemma Fset_code_checks_type_first_witness :
  isCode (OTuple None) = false
  /\ Fset_code (error := string) (OFunction Scenario.f) (OTuple None) Scenario.h1
     = (Panic (PException
          {| Base := TypeError; Message := "__code__ must be set to a code object" |}),
        Scenario.h1)
  /\ Fset_code (error := string) (OFunction Scenario.f) (OCode None) Scenario.h1
     = (Panic (PRuntime NilDereference), Scenario.h1).
Proof.
  split; [reflexivity|]. split.
  - exact (proj1 (Fset_code_checks_type_first (error := string) Scenario.h1 Scenario.f
                    (OTuple None)) eq_refl).
  - exact (proj2 (Fset_code_checks_type_first (error := string) Scenario.h1 Scenario.f
                    (OCode None)) eq_refl).
Defined.

(** ** Which failures the accessors raise *)

(** X9.  Python exceptions come from setters only.  A getter or a deleter
    of the table never panics with one; a setter panics with a [TypeError]
    whose message is the attribute's name followed by what it must be set
    to, or, for [__code__] alone and only on a code object, with a
    [ValueError]. *)
Theorem accessor_exceptions_classified {error} (h h' : Heap) (name : string)
    (p : Property error) (self value : Object) (e : Exception) :
  FunctionType_Dict !! name = Some p ->
  (forall get, Fget p = Some get -> get self h <> (Panic (PException e), h'))
  /\ (forall del, Fdel p = Some del -> del self h <> (Panic (PException e), h'))
  /\ (forall set, Fset p = Some set -> set self value h = (Panic (PException e), h') ->
        (Base e = TypeError
         /\ exists kind, Message e = name ++ " must be set to a " ++ kind ++ " object")
        \/ (Base e = ValueError /\ name = "__code__" /\ isCode value = true)).
Proof.
  intros Hp. split; [|split].
  - intros get Hget. each_entry Hp; simplify_eq; unfold_accessors; split_cases; congruence.
  - intros del Hdel. each_entry Hp; simplify_eq; unfold_accessors; split_cases; congruence.
  - intros set Hset.
    each_entry Hp; simplify_eq; unfold_accessors; split_cases; intros; simplify_eq;
      first [ by right
            | left; split; [reflexivity|];
              first [ by exists "code" | by exists "tuple" | by exists "dict"
                    | by exists "string" ] ].
Qed.

Lemma accessor_exceptions_classified_witness :
  FunctionType_Dict (error := string) !! "__code__"
  = Some {| Fget := Some Fget_code; Fset := Some Fset_code; Fdel := None |}
  /\ Fset_code (error := string) (OFunction Scenario.f) (OCode (Some Scenario.inner)) Scenario.h1
     = (Panic (PException
          {| Base := ValueError;
             Message := "add() requires a code object with 0 free vars, not 1" |}),
        Scenario.h1)
  /\ isCode (OCode (Some Scenario.inner)) = true.
Proof.
  split; [reflexivity|].
  assert (Hset : Fset_code (error := string) (OFunction Scenario.f)
                   (OCode (Some Scenario.inner)) Scenario.h1
                 = (Panic (PException
                      {| Base := ValueError;
                         Message := "add() requires a code object with 0 free vars, not 1" |}),
                    Scenario.h1))
    by (vm_compute; reflexivity).
  split; [exact Hset|].
  destruct (proj2 (proj2 (accessor_exceptions_classified (error := string) Scenario.h1
                            Scenario.h1 "__code__" _ (OFunction Scenario.f)
                            (OCode (Some Scenario.inner)) _ eq_refl)) Fset_code eq_refl Hset)
    as [[Hbase _]|(_ & _ & Hcode)]; [discriminate Hbase|exact Hcode].
Defined.

(** X10.  Setting an attribute to the value its getter returns changes
    nothing: for every name of the table but [__code__], on every function
    object, the getter succeeds and the setter of the same name accepts
    what it returned and leaves the heap as it is. *)
Theorem get_then_set_is_identity {error} (h : Heap) (f : loc) (fn : Function)
    (name : string) (p : Property error) (get : Object -> M error Object)
    (set : Object -> Object -> M error unit) :
  h !! f = Some (HFunction fn) ->
  FunctionType_Dict !! name = Some p ->
  name <> "__code__" ->
  Fget p = Some get ->
  Fset p = Some set ->
  exists v, get (OFunction f) h = (Ok v, h) /\ set (OFunction f) v h = (Ok tt, h).
Proof.
  intros Hf Hp Hname Hget Hset.
  each_entry Hp; try done; simplify_eq; eexists; unfold_accessors; rewrite !Hf;
    cbn beta iota zeta; (split; [reflexivity|]); cbn beta iota zeta; rewrite Hf;
    f_equal; apply insert_id; rewrite Hf; by destruct fn.
Qed.

Lemma get_then_set_is_identity_witness :
  Scenario.h1 !! Scenario.f = Some (HFunction Scenario.fn1)
  /\ FunctionType_Dict (error := string) !! "__qualname__"
     = Some {| Fget := Some Fget_qualname; Fset := Some Fset_qualname; Fdel := None |}
  /\ "__qualname__" <> "__code__"
  /\ exists v,
       Fget_qualname (error := string) (OFunction Scenario.f) Scenario.h1 = (Ok v, Scenario.h1)
       /\ Fset_qualname (error := string) (OFunction Scenario.f) v Scenario.h1
          = (Ok tt, Scenario.h1).
Proof.
  split; [vm_compute; reflexivity|]. split; [reflexivity|]. split; [discriminate|].
  exact (get_then_set_is_identity (error := string) Scenario.h1 Scenario.f Scenario.fn1
           "__qualname__" _ Fget_qualname Fset_qualname
           ltac:(vm_compute; reflexivity) eq_refl ltac:(discriminate) eq_refl eq_refl).
Defined.

(** ** More about construction *)

Lemma NewFunction_inv {error} (h h1 : Heap) (code : option Code) (globals : StringDict)
    (qualname : string) (f : loc) :
  NewFunction (error := error) code globals qualname h = (Ok f, h1) ->
  exists c m,
    code = Some c
    /\ contents h globals = Some m
    /\ f = fresh (dom h)
    /\ h1 = <[f := HFunction
                {| Code_ := Some c;
                   Qualname := if String.eqb qualname "" then CodeFields.Name c else qualname;
                   Globals := globals;
                   Name := CodeFields.Name c;
                   Doc := docOf c;
                   Module_ := match m !! "__name__" with
                              | Some moduleobj => moduleobj
                              | None => ONone
                              end;
                   Defaults := None; KwDefaults := None; Closure := None; Dict := None;
                   Weakreflist := None; Annotations := None |}]> h.
Proof.
  unfold NewFunction, bind, mapLookup, contents, alloc.
  destruct code as [c|]; [|discriminate]. cbn [derefCode ret].
  destruct globals as [g|].
  - destruct (h !! g) as [[| |m]|]; try discriminate.
    intros [= <- <-]. by exists c, m.
  - intros [= <- <-]. by exists c, ∅.
Qed.

(** X11.  [NewFunction] fails exactly on a nil code pointer, with a nil
    dereference of the Go runtime, and then nothing is allocated; on every
    code object, with globals that are nil or a map of the heap, it
    succeeds. *)
Theorem NewFunction_fails_on_nil_code {error} (h : Heap) (code : option Code)
    (globals : StringDict) (m : gmap string Object) (qualname : string) :
  contents h globals = Some m ->
  (code = None ->
     NewFunction (error := error) code globals qualname h
     = (Panic (PRuntime NilDereference), h))
  /\ (code <> None ->
      exists f h1, NewFunction (error := error) code globals qualname h = (Ok f, h1)).
Proof.
  intros Hm. split.
  - intros ->. reflexivity.
  - intros Hc. destruct code as [c|]; [|done].
    unfold NewFunction, bind, mapLookup, alloc. cbn [derefCode ret].
    destruct globals as [g|]; cbn in Hm.
    + destruct (h !! g) as [[| |m']|]; try discriminate. eauto.
    + eauto.
Qed.

Lemma NewFunction_fails_on_nil_code_witness :
  contents Scenario.h0 (Some Scenario.g) = Some Scenario.names
  /\ NewFunction (error := string) None (Some Scenario.g) "add" Scenario.h0
     = (Panic (PRuntime NilDereference), Scenario.h0).
Proof.
  split; [vm_compute; reflexivity|].
  exact (proj1 (NewFunction_fails_on_nil_code (error := string) Scenario.h0 None
                  (Some Scenario.g) Scenario.names "add" ltac:(vm_compute; reflexivity))
           eq_refl).
Defined.

(** X12.  A function object as [NewFunction] makes it has no closure, so
    its [__code__] setter accepts exactly the code objects without free
    variables; the code object it was made from is refused when it has
    free variables. *)
Theorem new_function_takes_closed_code_only {error} (h h1 : Heap) (code : option Code)
    (globals : StringDict) (qualname : string) (f : loc) (c' : Code) :
  NewFunction (error := error) code globals qualname h = (Ok f, h1) ->
  fst (Fset_code (error := error) (OFunction f) (OCode (Some c')) h1) = Ok tt
  <-> len (CodeFields.Freevars c') = 0.
Proof.
  intros Hnew. apply NewFunction_inv in Hnew as (c & m & -> & _ & -> & ->).
  unfold_accessors. rewrite lookup_insert_eq. cbn [Closure len].
  destruct (Nat.eqb_spec (len (CodeFields.Freevars c')) 0) as [E|E]; cbn [negb].
  - rewrite lookup_insert_eq. by split.
  - split; [discriminate|done].
Qed.

Lemma new_function_takes_closed_code_only_witness :
  NewFunction (error := string) (Some Scenario.inner) None "" Scenario.h0
  = (Ok Scenario.f, snd (NewFunction (error := string) (Some Scenario.inner) None "" Scenario.h0))
  /\ fst (Fset_code (error := string) (OFunction Scenario.f) (OCode (Some Scenario.inner))
            (snd (NewFunction (error := string) (Some Scenario.inner) None "" Scenario.h0)))
     <> Ok tt.
Proof.
  assert (Hnew : NewFunction (error := string) (Some Scenario.inner) None "" Scenario.h0
                 = (Ok Scenario.f,
                    snd (NewFunction (error := string) (Some Scenario.inner) None ""
                           Scenario.h0)))
    by (vm_compute; reflexivity).
  split; [exact Hnew|].
  intros Hok.
  apply (new_function_takes_closed_code_only (error := string) _ _ _ _ _ _ Scenario.inner Hnew)
    in Hok.
  discriminate Hok.
Defined.

(** X13.  One code object can back many function objects: two calls of
    [NewFunction] with the same arguments give two different function
    objects whose fields are equal, so a later write to one, which touches
    its receiver only, is not seen through the other. *)
Theorem NewFunction_twice {error} (h h1 h2 : Heap) (code : option Code)
    (globals : StringDict) (qualname : string) (f1 f2 : loc) :
  NewFunction (error := error) code globals qualname h = (Ok f1, h1) ->
  NewFunction (error := error) code globals qualname h1 = (Ok f2, h2) ->
  f1 <> f2
  /\ exists fn, h2 !! f1 = Some (HFunction fn)
                /\ h2 !! f2 = Some (HFunction fn)
                /\ Code_ fn = code.
Proof.
  intros H1 H2.
  apply NewFunction_inv in H1 as (c & m & -> & Hm & -> & ->).
  apply NewFunction_inv in H2 as (c2 & m2 & [= <-] & Hm2 & -> & ->).
  set (f1 := fresh (dom h)) in *.
  assert (Hf1 : h !! f1 = None) by (apply alloc_fresh; exact (HDict ∅)).
  set (h1 := <[f1 := _]> h) in *.
  assert (Hf2 : h1 !! fresh (dom h1) = None) by (apply alloc_fresh; exact (HDict ∅)).
  assert (Hne : f1 <> fresh (dom h1)).
  { intros E. rewrite <- E in Hf2. unfold h1 in Hf2. by rewrite lookup_insert_eq in Hf2. }
  assert (m2 = m) as ->.
  { destruct globals as [g|]; cbn in Hm, Hm2; [|congruence].
    destruct (h !! g) as [[| |m']|] eqn:Hg; try discriminate.
    assert (g <> f1) by congruence.
    unfold h1 in Hm2. rewrite lookup_insert_ne, Hg in Hm2 by done. congruence. }
  split; [done|]. eexists. split; [|split].
  - rewrite lookup_insert_ne by done. unfold h1. apply lookup_insert_eq.
  - apply lookup_insert_eq.
  - reflexivity.
Qed.

Lemma NewFunction_twice_witness :
  exists f2 h2,
    NewFunction (error := string) (Some Scenario.C) (Some Scenario.g) "" Scenario.h0
    = (Ok Scenario.f, Scenario.h1)
    /\ NewFunction (error := string) (Some Scenario.C) (Some Scenario.g) "" Scenario.h1
       = (Ok f2, h2)
    /\ Scenario.f <> f2
    /\ exists fn, h2 !! Scenario.f = Some (HFunction fn)
                  /\ h2 !! f2 = Some (HFunction fn)
                  /\ Code_ fn = Some Scenario.C.
Proof.
  assert (H1 : NewFunction (error := string) (Some Scenario.C) (Some Scenario.g) "" Scenario.h0
               = (Ok Scenario.f, Scenario.h1)) by (vm_compute; reflexivity).
  destruct (NewFunction (error := string) (Some Scenario.C) (Some Scenario.g) "" Scenario.h1)
    as [r2 h2] eqn:H2.
  assert (exists f2, r2 = Ok f2) as [f2 ->]
    by (vm_compute in H2; injection H2 as <- _; by eexists).
  exists f2, h2. split; [exact H1|]. split; [reflexivity|].
  exact (NewFunction_twice (error := string) _ _ _ _ _ _ _ _ H1 H2).
Defined.

(** ** Calls after writes *)

Lemma calls_of_call {error} (ev : Evaluator error) (h : Heap) (f : loc) (fn : Function)
    (args : Tuple) (kwargs : StringDict) :
  h !! f = Some (HFunction fn) ->
  calls ev (M__call__ f args kwargs h)
  = [(requestOf fn (fresh (dom h)) args kwargs, <[fresh (dom h) := HDict ∅]> h)].
Proof.
  intros Hf. rewrite (M__call___unfold _ _ _ _ _ Hf). cbn [calls].
  by destruct (ev _ _) as [[result [e|]] h2].
Qed.

Lemma dom_overwrite (h : Heap) (f : loc) (c c' : Cell) :
  h !! f = Some c -> dom (<[f := c']> h) = dom h.
Proof.
  intros Hf. rewrite dom_insert_L.
  assert (Hin : f ∈ dom h) by (apply elem_of_dom; eauto).
  apply subseteq_union_1_L. by apply singleton_subseteq_l.
Qed.

(** X14.  A call passes the fields as they are at the time of the call:
    after a successful set of [__code__], [__defaults__] or
    [__kwdefaults__], the one request the next call makes carries the value
    that was set, with the globals and the closure of the function and the
    arguments of the call. *)
Theorem call_sees_latest_set {error} (ev : Evaluator error) (h h1 : Heap) (f : loc)
    (fn : Function) (args : Tuple) (kwargs : StringDict) (name : string)
    (p : Property error) (set : Object -> Object -> M error unit) (value : Object) :
  h !! f = Some (HFunction fn) ->
  FunctionType_Dict !! name = Some p ->
  Fset p = Some set ->
  set (OFunction f) value h = (Ok tt, h1) ->
  exists req,
    map fst (calls ev (M__call__ f args kwargs h1)) = [req]
    /\ (name = "__code__" -> OCode (req_code req) = value)
    /\ (name = "__defaults__" -> OTuple (req_defaults req) = value)
    /\ (name = "__kwdefaults__" -> OStringDict (req_kwdefaults req) = value)
    /\ req_globals req = Globals fn
    /\ req_closure req = Closure fn
    /\ req_args req = args
    /\ req_kwargs req = kwargs.
Proof.
  intros Hf Hp Hset. revert h1.
  each_entry Hp; simplify_eq; intros h1; unfold_accessors; rewrite ?Hf; split_cases;
    rewrite ?Hf; intros; simplify_eq;
    (erewrite calls_of_call by apply lookup_insert_eq);
    eexists; (split; [reflexivity|]); repeat split; intros; simplify_eq; reflexivity.
Qed.

Lemma call_sees_latest_set_witness :
  Scenario.h1 !! Scenario.f = Some (HFunction Scenario.fn1)
  /\ FunctionType_Dict (error := string) !! "__defaults__"
     = Some {| Fget := Some Fget_defaults; Fset := Some Fset_defaults;
               Fdel := Some Fdel_defaults |}
  /\ Fset_defaults (error := string) (OFunction Scenario.f) (OTuple (Some [OInt 1])) Scenario.h1
     = (Ok tt, <[Scenario.f := HFunction (set_Defaults (Some [OInt 1]) Scenario.fn1)]>
                 Scenario.h1)
  /\ exists req,
       map fst (calls Scenario.adder
                  (M__call__ Scenario.f (Some [OInt 2]) None
                     (<[Scenario.f := HFunction (set_Defaults (Some [OInt 1]) Scenario.fn1)]>
                        Scenario.h1)))
       = [req]
       /\ OTuple (req_defaults req) = OTuple (Some [OInt 1]).
Proof.
  assert (Hf : Scenario.h1 !! Scenario.f = Some (HFunction Scenario.fn1))
    by (vm_compute; reflexivity).
  assert (Hset : Fset_defaults (error := string) (OFunction Scenario.f)
                   (OTuple (Some [OInt 1])) Scenario.h1
                 = (Ok tt, <[Scenario.f := HFunction (set_Defaults (Some [OInt 1]) Scenario.fn1)]>
                             Scenario.h1))
    by (vm_compute; reflexivity).
  split; [exact Hf|]. split; [reflexivity|]. split; [exact Hset|].
  destruct (call_sees_latest_set Scenario.adder Scenario.h1 _ Scenario.f Scenario.fn1
              (Some [OInt 2]) None "__defaults__" _ Fset_defaults (OTuple (Some [OInt 1]))
              Hf eq_refl eq_refl Hset)
    as (req & Hreq & _ & Hdefaults & _).
  exists req. split; [exact Hreq|]. by apply Hdefaults.
Defined.

(** X15.  The name, the qualified name, the annotations and the attribute
    dictionary never reach the evaluator: after a set or a delete of one of
    them, successful or not, a call makes the request it would have made
    before. *)
Theorem call_ignores_descriptive_attributes {error} (ev : Evaluator error) (h : Heap)
    (f : loc) (fn : Function) (args : Tuple) (kwargs : StringDict) (name : string)
    (p : Property error) (value : Object) (op : M error unit) :
  h !! f = Some (HFunction fn) ->
  FunctionType_Dict !! name = Some p ->
  name ∈ ["__name__"; "__qualname__"; "__annotations__"; "__dict__"] ->
  op ∈ writesOf p (OFunction f) value ->
  map fst (calls ev (M__call__ f args kwargs (snd (op h))))
  = map fst (calls ev (M__call__ f args kwargs h)).
Proof.
  intros Hf Hp Hname Hop.
  rewrite (calls_of_call ev h f fn) by done.
  each_entry Hp;
    repeat (apply elem_of_cons in Hname as [?|Hname]; [try discriminate|]);
    try (by apply elem_of_nil in Hname);
    each_write Hop; unfold_accessors; rewrite ?Hf; split_cases; rewrite ?Hf; cbn [snd];
    try (by rewrite (calls_of_call ev h f fn));
    (erewrite calls_of_call by apply lookup_insert_eq);
    by rewrite (dom_overwrite _ _ _ _ Hf).
Qed.

Lemma call_ignores_descriptive_attributes_witness :
  Scenario.h1 !! Scenario.f = Some (HFunction Scenario.fn1)
  /\ FunctionType_Dict (error := string) !! "__name__"
     = Some {| Fget := Some Fget_name; Fset := Some Fset_name; Fdel := None |}
  /\ "__name__" ∈ ["__name__"; "__qualname__"; "__annotations__"; "__dict__"]
  /\ map fst (calls Scenario.adder
                (M__call__ Scenario.f (Some [OInt 2; OInt 3]) None
                   (snd (Fset_name (error := string) (OFunction Scenario.f) (OString "plus")
                           Scenario.h1))))
     = map fst (calls Scenario.adder
                  (M__call__ Scenario.f (Some [OInt 2; OInt 3]) None Scenario.h1)).
Proof.
  assert (Hin : "__name__" ∈ ["__name__"; "__qualname__"; "__annotations__"; "__dict__"])
    by apply list_elem_of_here.
  split; [vm_compute; reflexivity|]. split; [reflexivity|]. split; [exact Hin|].
  exact (call_ignores_descriptive_attributes Scenario.adder Scenario.h1 Scenario.f
           Scenario.fn1 (Some [OInt 2; OInt 3]) None "__name__" _ (OString "plus")
           (Fset_name (OFunction Scenario.f) (OString "plus"))
           ltac:(vm_compute; reflexivity) eq_refl Hin ltac:(apply list_elem_of_here)).
Defined.

(** X16.  A call whose receiver points to no function struct panics with
    a nil dereference before anything else happens: the evaluator is not
    called and the heap is untouched.  The evaluator is called exactly when
    the receiver is a function object. *)
Theorem call_on_nil_receiver {error} (ev : Evaluator error) (h : Heap) (f : loc)
    (args : Tuple) (kwargs : StringDict) :
  ((forall fn, h !! f <> Some (HFunction fn)) ->
     run ev (M__call__ f args kwargs h) = (Panic (PRuntime NilDereference), h))
  /\ (calls ev (M__call__ f args kwargs h) = []
      <-> forall fn, h !! f <> Some (HFunction fn)).
Proof.
  split.
  - intros Hf. unfold M__call__, load.
    destruct (h !! f) as [[fn| |]|]; try reflexivity. by destruct (Hf fn).
  - split.
    + intros Hcalls fn Hf. by rewrite (calls_of_call _ _ _ _ _ _ Hf) in Hcalls.
    + intros Hf. unfold M__call__, load.
      destruct (h !! f) as [[fn| |]|]; try reflexivity. by destruct (Hf fn).
Qed.

Lemma call_on_nil_receiver_witness :
  (forall fn, Scenario.h1 !! Scenario.g <> Some (HFunction fn))
  /\ run Scenario.adder (M__call__ Scenario.g (Some [OInt 2; OInt 3]) None Scenario.h1)
     = (Panic (PRuntime NilDereference), Scenario.h1).
Proof.
  assert (Hg : forall fn, Scenario.h1 !! Scenario.g <> Some (HFunction fn))
    by (intros fn; vm_compute; discriminate).
  split; [exact Hg|].
  exact (proj1 (call_on_nil_receiver Scenario.adder Scenario.h1 Scenario.g
                  (Some [OInt 2; OInt 3]) None) Hg).
Defined.

(** ** [GetDict] and the [__dict__] property *)

(** X17.  [GetDict] and the [__dict__] property speak of the same field:
    on a function object [GetDict] returns the map the getter wraps, the
    map that the setter stored, and nil after the deleter; it does not
    change the heap. *)
Theorem GetDict_agrees_with_property {error} (h : Heap) (f : loc) (fn : Function)
    (d : StringDict) :
  h !! f = Some (HFunction fn) ->
  GetDict (error := error) f h = (Ok (Dict fn), h)
  /\ Fget_dict (error := error) (OFunction f) h = (Ok (OStringDict (Dict fn)), h)
  /\ (exists h1, Fset_dict (error := error) (OFunction f) (OStringDict d) h = (Ok tt, h1)
                 /\ GetDict (error := error) f h1 = (Ok d, h1))
  /\ (exists h1, Fdel_dict (error := error) (OFunction f) h = (Ok tt, h1)
                 /\ GetDict (error := error) f h1 = (Ok None, h1)).
Proof.
  intros Hf. unfold_accessors. rewrite !Hf. cbn beta iota zeta.
  repeat split; eexists; (split; [reflexivity|]); by rewrite lookup_insert_eq.
Qed.

Lemma GetDict_agrees_with_property_witness :
  Scenario.h1 !! Scenario.f = Some (HFunction Scenario.fn1)
  /\ GetDict (error := string) Scenario.f Scenario.h1 = (Ok None, Scenario.h1)
  /\ exists h1,
       Fset_dict (error := string) (OFunction Scenario.f) (OStringDict (Some Scenario.g))
         Scenario.h1 = (Ok tt, h1)
       /\ GetDict (error := string) Scenario.f h1 = (Ok (Some Scenario.g), h1).
Proof.
  assert (Hf : Scenario.h1 !! Scenario.f = Some (HFunction Scenario.fn1))
    by (vm_compute; reflexivity).
  split; [exact Hf|].
  destruct (GetDict_agrees_with_property (error := string) Scenario.h1 Scenario.f
              Scenario.fn1 (Some Scenario.g) Hf) as (Hget & _ & Hset & _).
  split; [exact Hget|exact Hset].
Defined.

(** ** Bound methods are made anew *)

(** X18.  Reading a function through an instance allocates: the bound
    method is a cell at an address that was free, every cell the heap had
    is as before, and reading a second time gives another bound method, at
    another address, for the same instance and function. *)
Theorem M__get___allocates_each_time {error} (h h1 h2 : Heap) (f : loc)
    (instance owner : Object) (r1 r2 : Object) :
  instance <> ONone ->
  M__get__ (error := error) f instance owner h = (Ok r1, h1) ->
  M__get__ (error := error) f instance owner h1 = (Ok r2, h2) ->
  exists m1 m2,
    r1 = OBoundMethod m1 /\ r2 = OBoundMethod m2 /\ m1 <> m2
    /\ h !! m1 = None
    /\ h2 !! m1 = Some (HBoundMethod instance (OFunction f))
    /\ h2 !! m2 = Some (HBoundMethod instance (OFunction f))
    /\ (forall l, is_Some (h !! l) -> h2 !! l = h !! l).
Proof.
  intros Hne H1 H2.
  rewrite (M__get___bound _ _ _ _ Hne) in H1. injection H1 as <- <-.
  rewrite (M__get___bound _ _ _ _ Hne) in H2. injection H2 as <- <-.
  set (m1 := fresh (dom h)).
  assert (Hm1 : h !! m1 = None) by (apply alloc_fresh; exact (HDict ∅)).
  set (h1 := <[m1 := HBoundMethod instance (OFunction f)]> h).
  assert (Hm2 : h1 !! fresh (dom h1) = None) by (apply alloc_fresh; exact (HDict ∅)).
  assert (Hdiff : m1 <> fresh (dom h1)).
  { intros E. rewrite <- E in Hm2. unfold h1 in Hm2. by rewrite lookup_insert_eq in Hm2. }
  exists m1, (fresh (dom h1)). repeat split; try done.
  - rewrite lookup_insert_ne by done. apply lookup_insert_eq.
  - apply lookup_insert_eq.
  - intros l [c Hl].
    assert (l <> m1) by congruence.
    assert (h1 !! l = Some c) as Hl1 by (unfold h1; by rewrite lookup_insert_ne).
    assert (l <> fresh (dom h1)) by congruence.
    rewrite lookup_insert_ne by done. by rewrite Hl1, Hl.
Qed.

Lemma M__get___allocates_each_time_witness :
  OInt 7 <> ONone
  /\ exists r1 h1 r2 h2,
       M__get__ (error := string) Scenario.f (OInt 7) ONone Scenario.h1 = (Ok r1, h1)
       /\ M__get__ (error := string) Scenario.f (OInt 7) ONone h1 = (Ok r2, h2)
       /\ r1 <> r2.
Proof.
  assert (Hne : OInt 7 <> ONone) by discriminate.
  split; [exact Hne|].
  pose proof (M__get___bound (error := string) Scenario.h1 Scenario.f (OInt 7) ONone Hne) as H1.
  pose proof (M__get___bound (error := string)
                (<[fresh (dom Scenario.h1) := HBoundMethod (OInt 7) (OFunction Scenario.f)]>
                   Scenario.h1) Scenario.f (OInt 7) ONone Hne) as H2.
  do 4 eexists. split; [exact H1|]. split; [exact H2|].
  destruct (M__get___allocates_each_time (error := string) _ _ _ _ _ _ _ _ Hne H1 H2)
    as (m1 & m2 & E1 & E2 & Hdiff & _).
  rewrite E1, E2. congruence.
Defined.

(** ** The message of the arity failure *)

(** X19.  The [ValueError] of the [__code__] setter names the function by
    its current [__name__]: after the name was set to [s] the message
    starts with [s], and a set of [__qualname__] does not change it. *)
Theorem arity_message_uses_current_name {error} (h : Heap) (f : loc) (fn : Function)
    (c : Code) (s q : string) :
  h !! f = Some (HFunction fn) ->
  len (CodeFields.Freevars c) <> len (Closure fn) ->
  let tail := "() requires a code object with " ++ itoa (len (Closure fn))
              ++ " free vars, not " ++ itoa (len (CodeFields.Freevars c)) in
  let h1 := snd (Fset_name (error := error) (OFunction f) (OString s) h) in
  let h2 := snd (Fset_qualname (error := error) (OFunction f) (OString q) h) in
  Fset_code (error := error) (OFunction f) (OCode (Some c)) h1
  = (Panic (PException {| Base := ValueError; Message := s ++ tail |}), h1)
  /\ Fset_code (error := error) (OFunction f) (OCode (Some c)) h2
     = (Panic (PException {| Base := ValueError; Message := Name fn ++ tail |}), h2).
Proof.
  intros Hf Hlen. cbn zeta. unfold_accessors. rewrite !Hf. cbn beta iota zeta.
  cbn [snd]. rewrite !lookup_insert_eq. cbn [Closure Name set_Name set_Qualname].
  destruct (Nat.eqb_spec (len (CodeFields.Freevars c)) (len (Closure fn))) as [E|_];
    [done|]. by split.
Qed.

Lemma arity_message_uses_current_name_witness :
  Scenario.h1 !! Scenario.f = Some (HFunction Scenario.fn1)
  /\ len (CodeFields.Freevars Scenario.inner) <> len (Closure Scenario.fn1)
  /\ fst (Fset_code (error := string) (OFunction Scenario.f) (OCode (Some Scenario.inner))
            (snd (Fset_name (error := string) (OFunction Scenario.f) (OString "plus")
                    Scenario.h1)))
     = Panic (PException
         {| Base := ValueError;
            Message := "plus() requires a code object with 0 free vars, not 1" |}).
Proof.
  assert (Hf : Scenario.h1 !! Scenario.f = Some (HFunction Scenario.fn1))
    by (vm_compute; reflexivity).
  assert (Hlen : len (CodeFields.Freevars Scenario.inner) <> len (Closure Scenario.fn1))
    by (vm_compute; discriminate).
  split; [exact Hf|]. split; [exact Hlen|].
  by rewrite (proj1 (arity_message_uses_current_name (error := string) Scenario.h1
                       Scenario.f Scenario.fn1 Scenario.inner "plus" "" Hf Hlen)).
Defined.

(** ** The shape of the table *)

(** X20.  [init] installs properties under seven names, each with a
    getter and a setter; a deleter comes with exactly [__defaults__],
    [__kwdefaults__], [__annotations__] and [__dict__], so that
    [__code__], [__name__] and [__qualname__] cannot be deleted.  [init]
    installs nothing for the closure, the globals, the doc or the module. *)
Theorem table_shape {error} (name : string) :
  (is_Some (getterOf (error := error) name)
   <-> name ∈ ["__code__"; "__defaults__"; "__kwdefaults__"; "__annotations__";
               "__dict__"; "__name__"; "__qualname__"])
  /\ (is_Some (setterOf (error := error) name) <-> is_Some (getterOf (error := error) name))
  /\ (is_Some (deleterOf (error := error) name)
      <-> name ∈ ["__defaults__"; "__kwdefaults__"; "__annotations__"; "__dict__"]).
Proof.
  unfold getterOf, setterOf, deleterOf.
  destruct (FunctionType_Dict (error := error) !! name) as [p|] eqn:Hp.
  - each_entry Hp; cbn [Fget Fset Fdel]; repeat split; intros; eauto;
      repeat first [ apply list_elem_of_here | apply list_elem_of_further ];
      repeat match goal with
      | H : is_Some None |- _ => by destruct H
      | H : _ ∈ _ :: _ |- _ => apply elem_of_cons in H as [?|H]; [discriminate|]
      | H : _ ∈ [] |- _ => by apply elem_of_nil in H
      end.
  - assert (Hout : ~ name ∈ ["__code__"; "__defaults__"; "__kwdefaults__"; "__annotations__";
                              "__dict__"; "__name__"; "__qualname__"]).
    { intros Hin.
      repeat (apply elem_of_cons in Hin as [->|Hin]; [by vm_compute in Hp|]).
      by apply elem_of_nil in Hin. }
    repeat split; intros H; try (by destruct H); try done.
    exfalso. apply Hout.
    repeat (apply elem_of_cons in H as [->|H];
            [repeat first [ apply list_elem_of_here | apply list_elem_of_further ]|]).
    by apply elem_of_nil in H.
Qed.

Lemma table_shape_witness :
  is_Some (deleterOf (error := string) "__dict__")
  /\ ~ is_Some (deleterOf (error := string) "__code__")
  /\ ~ is_Some (getterOf (error := string) "__closure__").
Proof.
  split; [|split].
  - apply (proj2 (proj2 (table_shape (error := string) "__dict__"))).
    repeat first [ apply list_elem_of_here | apply list_elem_of_further ].
  - intros Hdel. apply (proj2 (proj2 (table_shape (error := string) "__code__"))) in Hdel.
    repeat (apply elem_of_cons in Hdel as [Hdel|Hdel]; [discriminate Hdel|]).
    by apply elem_of_nil in Hdel.
  - intros Hget. apply (proj1 (table_shape (error := string) "__closure__")) in Hget.
    repeat (apply elem_of_cons in Hget as [Hget|Hget]; [discriminate Hget|]).
    by apply elem_of_nil in Hget.
Defined.

(** ** Any sequence of writes *)

(** Runs writes one after the other, going on after a panic as a caller
    that recovers would. *)
Definition runWrites {error} (ops : list (M error unit)) (h : Heap) : Heap :=
  fold_left (fun h op => snd (op h)) ops h.

(** A write that the table offers, on some receiver with some value. *)
Definition tableWrite {error} (op : M error unit) : Prop :=
  exists name p self value,
    FunctionType_Dict !! name = Some p /\ op ∈ writesOf p self value.

Lemma tableWrite_keepsArity {error} (f : loc) (op : M error unit) :
  tableWrite op -> keepsArity f op.
Proof.
  intros (name & p & self & value & Hp & Hop).
  each_entry Hp; each_write Hop;
    try (unfold Fset_defaults, Fset_kwdefaults, Fset_annotations, Fset_dict, Fset_name,
           Fset_qualname, Fdel_defaults, Fdel_kwdefaults, Fdel_annotations, Fdel_dict);
    keeps_arity.
Qed.

Lemma tableWrite_keeps_closure {error} (h : Heap) (f : loc) (op : M error unit) :
  tableWrite op ->
  (exists fn, h !! f = Some (HFunction fn) /\ Closure fn = None) ->
  exists fn, snd (op h) !! f = Some (HFunction fn) /\ Closure fn = None.
Proof.
  intros (name & p & self & value & Hp & Hop) (fn & Hf & Hcl).
  assert (Hself : self = OFunction f \/ self <> OFunction f).
  { destruct self as [| | | | | | | |g|]; try (by right).
    destruct (decide (g = f)) as [->|]; [by left|right; congruence]. }
  destruct Hself as [->|Hself].
  - each_entry Hp; each_write Hop; unfold_accessors; rewrite ?Hf; split_cases;
      rewrite ?Hf, ?lookup_insert_eq; eauto.
  - exists fn. split; [|done]. rewrite <- Hf.
    each_entry Hp; each_write Hop; unfold_accessors; split_cases; try done;
      rewrite lookup_insert_ne; (done || congruence).
Qed.

(** X21.  Whatever writes of the table follow the construction of a
    function object, in any number and order, on any receivers, with any
    values and whether they succeed or panic, the function object still has
    no closure and the invariant between its closure and its code holds. *)
Theorem arity_holds_after_any_writes {error} (h h1 : Heap) (code : option Code)
    (globals : StringDict) (qualname : string) (f : loc) (ops : list (M error unit)) :
  NewFunction (error := error) code globals qualname h = (Ok f, h1) ->
  Forall tableWrite ops ->
  arityHoldsAt (runWrites ops h1) f
  /\ exists fn, runWrites ops h1 !! f = Some (HFunction fn) /\ Closure fn = None.
Proof.
  intros Hnew Hops.
  assert (Hstart : arityHoldsAt h1 f
                   /\ exists fn, h1 !! f = Some (HFunction fn) /\ Closure fn = None).
  { apply NewFunction_inv in Hnew as (c & m & -> & _ & -> & ->).
    split; eexists; (split; [apply lookup_insert_eq|reflexivity]). }
  clear Hnew. revert h1 Hstart.
  induction Hops as [|op ops Hop _ IH]; intros h1 [Harity Hclosure]; [done|].
  cbn [runWrites fold_left]. apply IH. split.
  - by apply tableWrite_keepsArity.
  - by apply tableWrite_keeps_closure.
Qed.

Lemma arity_holds_after_any_writes_witness :
  NewFunction (error := string) (Some Scenario.C) (Some Scenario.g) "" Scenario.h0
  = (Ok Scenario.f, Scenario.h1)
  /\ Forall tableWrite
       [Fset_name (error := string) (OFunction Scenario.f) (OString "plus");
        Fset_code (OFunction Scenario.f) (OCode (Some Scenario.inner));
        Fdel_dict (OFunction Scenario.f)]
  /\ arityHoldsAt
       (runWrites
          [Fset_name (error := string) (OFunction Scenario.f) (OString "plus");
           Fset_code (OFunction Scenario.f) (OCode (Some Scenario.inner));
           Fdel_dict (OFunction Scenario.f)]
          Scenario.h1)
       Scenario.f.
Proof.
  assert (Hnew : NewFunction (error := string) (Some Scenario.C) (Some Scenario.g) ""
                   Scenario.h0 = (Ok Scenario.f, Scenario.h1))
    by (vm_compute; reflexivity).
  assert (Hops : Forall tableWrite
                   [Fset_name (error := string) (OFunction Scenario.f) (OString "plus");
                    Fset_code (OFunction Scenario.f) (OCode (Some Scenario.inner));
                    Fdel_dict (OFunction Scenario.f)]).
  { apply List.Forall_cons; [|apply List.Forall_cons; [|apply List.Forall_cons;
      [|apply List.Forall_nil]]].
    - exists "__name__", {| Fget := Some Fget_name; Fset := Some Fset_name; Fdel := None |},
        (OFunction Scenario.f), (OString "plus").
      split; [reflexivity|apply list_elem_of_here].
    - exists "__code__", {| Fget := Some Fget_code; Fset := Some Fset_code; Fdel := None |},
        (OFunction Scenario.f), (OCode (Some Scenario.inner)).
      split; [reflexivity|apply list_elem_of_here].
    - exists "__dict__",
        {| Fget := Some Fget_dict; Fset := Some Fset_dict; Fdel := Some Fdel_dict |},
        (OFunction Scenario.f), ONone.
      split; [reflexivity|apply list_elem_of_further, list_elem_of_here]. }
  split; [exact Hnew|]. split; [exact Hops|].
  exact (proj1 (arity_holds_after_any_writes (error := string) _ _ _ _ _ _ _ Hnew Hops)).
Defined.
